(** * SENTINEL: voice fraud-risk pipeline

    A shallow embedding of the audio analysis engine (voiceEngine.js) and of
    the risk engine, the real-time monitor and the WebSocket message handler
    of the backend (server.js), together with the properties the design
    document states about them.

    Numbers.  A JavaScript number is modelled by an exact rational [Q]:
    every threshold, weight and clamp of the source is a decimal constant
    and is represented exactly.  Rounding of binary floating point is
    outside the model.  The engine divides by a quantity that can be zero
    in two places, both in the spectral analysis; the quotients there and
    everything computed from them are numbers with the special values NaN
    and +-Infinity ([Double.t]).  Every other divisor of the program is a
    non-zero constant or the length of a non-empty array.  The
    transcendental functions of the runtime's [Math] object are an
    interface ([JSMath]) the engine is parameterised by. *)

From Stdlib Require Import String.
From Stdlib Require Strings.Byte.
From Stdlib Require Import QArith Qround Qabs ZArith List Bool Lia Lqa.
Import ListNotations.

(** ** The JavaScript runtime, as far as the program uses it *)

Module JS.

Definition number := Q.

(** [x < y], [x > y], [x >= y] and [x === y] on numbers. *)
Definition ltb (x y : Q) : bool := negb (Qle_bool y x).
Definition gtb (x y : Q) : bool := ltb y x.
Definition geb (x y : Q) : bool := Qle_bool y x.
Definition eqb (x y : Q) : bool := Qeq_bool x y.

Definition Math_min (a b : Q) : Q := if Qle_bool a b then a else b.
Definition Math_max (a b : Q) : Q := if Qle_bool a b then b else a.
Definition Math_abs (x : Q) : Q := Qabs x.
Definition Math_floor (x : Q) : Q := inject_Z (Qfloor x).

(** [Math.round] rounds to the nearest integer, ties towards +infinity. *)
Definition Math_round (x : Q) : Q := inject_Z (Qfloor (x + 0.5)).

(** [Math.max(...arr)]; the source never spreads an empty array
    (JavaScript would give -Infinity there). *)
Definition Math_max_list (arr : list Q) : Q :=
  match arr with
  | [] => 0
  | x :: rest => fold_left Math_max rest x
  end.

(** [parseFloat(x.toFixed(d))]: the nearest multiple of 10^-d, ties away
    from zero. *)
Definition toFixed (d : nat) (x : Q) : Q :=
  let scale := inject_Z (10 ^ Z.of_nat d) in
  if ltb x 0
  then - (inject_Z (Qfloor ((- x) * scale + 0.5)) / scale)
  else inject_Z (Qfloor (x * scale + 0.5)) / scale.

(** A boolean used as a number ([true] is 1, [false] is 0). *)
Definition bool_to_number (b : bool) : Q := if b then 1 else 0.

(** Truthiness of a possibly absent boolean property. *)
Definition truthy (v : option bool) : bool :=
  match v with Some true => true | _ => false end.

(** Truthiness of a possibly absent number: absent and 0 are falsy. *)
Definition truthy_num (v : option Q) : bool :=
  match v with Some x => negb (eqb x 0) | None => false end.

(** [v || dflt] on a possibly absent number. *)
Definition or_default (v : option Q) (dflt : Q) : Q :=
  match v with
  | Some x => if eqb x 0 then dflt else x
  | None => dflt
  end.

(** [arr.reduce((a, b) => a + b, 0)] *)
Definition sum (arr : list Q) : Q := fold_left Qplus arr 0.

Definition len {A} (arr : list A) : Q := inject_Z (Z.of_nat (length arr)).

(** [arr.slice(a, b)] for indices [0 <= a], [0 <= b]. *)
Definition slice {A} (a b : nat) (arr : list A) : list A :=
  firstn (b - a) (skipn a arr).

(** [arr.slice(-n)]: the last [n] elements (all of them when fewer). *)
Definition slice_last {A} (n : nat) (arr : list A) : list A :=
  skipn (length arr - n) arr.

(** [arr.slice(-n, -m)]: from [max(len-n, 0)] up to [max(len-m, 0)]. *)
Definition slice_neg {A} (n m : nat) (arr : list A) : list A :=
  slice (length arr - n) (length arr - m) arr.

(** [arr.filter((_, i) => p(i))] *)
Definition filter_index {A} (p : nat -> bool) (arr : list A) : list A :=
  map snd (filter (fun ix => p (fst ix)) (combine (seq 0 (length arr)) arr)).

(** How a call can fail: with a TypeError of the runtime, or because the
    recursion bound of the model was reached (which, for the bounds the
    model uses, is shown not to happen). *)
Inductive error := TypeError | OutOfFuel.

Inductive result (A : Type) :=
| Ok (a : A)
| Throw (e : error).
Arguments Ok {A} a.
Arguments Throw {A} e.

Definition bind {A B} (r : result A) (k : A -> result B) : result B :=
  match r with
  | Ok a => k a
  | Throw e => Throw e
  end.

(** [try { body } catch (e) { return null }] *)
Definition try_or_null {A} (body : result (option A)) : option A :=
  match body with
  | Ok v => v
  | Throw _ => None
  end.

(** The part of [Math] that has no exact rational counterpart. *)
Class JSMath := {
  Math_PI : Q;
  Math_sqrt : Q -> Q;
  Math_cos : Q -> Q;
  Math_sin : Q -> Q;
  Math_log2 : Q -> Q
}.

(** The values the program hands to [new DataView(buffer)]: an
    ArrayBuffer, a Node.js [Buffer] (a Uint8Array, which is what
    [Buffer.from] and [fs.readFileSync] return) or [undefined] (a
    property that is not there, such as [req.file.buffer] of a file
    multer has stored on disk). *)
Inductive value :=
| ArrayBuffer (bytes : list Byte.byte)
| Buffer (bytes : list Byte.byte)
| undefined.

(** [new DataView(buffer)] raises a TypeError unless [buffer] is an
    ArrayBuffer; the view reads the bytes of the ArrayBuffer. *)
Definition new_DataView (buffer : value) : result (list Byte.byte) :=
  match buffer with
  | ArrayBuffer bytes => Ok bytes
  | Buffer _ => Throw TypeError
  | undefined => Throw TypeError
  end.

(** Numbers that can be special values: NaN, +Infinity ([Infinity true]),
    -Infinity ([Infinity false]) or a finite number, with the arithmetic
    of IEEE 754 on them.  The two zeros are not told apart: a zero
    divisor is taken as +0. *)
Module Double.

Inductive t := NaN | Infinity (positive : bool) | Finite (q : Q).

Definition add (a b : t) : t :=
  match a, b with
  | NaN, _ => NaN
  | _, NaN => NaN
  | Infinity s, Infinity s' => if Bool.eqb s s' then Infinity s else NaN
  | Infinity s, Finite _ => Infinity s
  | Finite _, Infinity s => Infinity s
  | Finite x, Finite y => Finite (x + y)
  end.

Definition neg (a : t) : t :=
  match a with
  | NaN => NaN
  | Infinity s => Infinity (negb s)
  | Finite x => Finite (- x)
  end.

Definition sub (a b : t) : t := add a (neg b).

Definition mul (a b : t) : t :=
  match a, b with
  | NaN, _ => NaN
  | _, NaN => NaN
  | Infinity s, Infinity s' => Infinity (Bool.eqb s s')
  | Infinity s, Finite x =>
      if eqb x 0 then NaN else Infinity (Bool.eqb s (ltb 0 x))
  | Finite x, Infinity s =>
      if eqb x 0 then NaN else Infinity (Bool.eqb s (ltb 0 x))
  | Finite x, Finite y => Finite (x * y)
  end.

Definition div (a b : t) : t :=
  match a, b with
  | NaN, _ => NaN
  | _, NaN => NaN
  | Infinity _, Infinity _ => NaN
  | Infinity s, Finite y => Infinity (Bool.eqb s (negb (ltb y 0)))
  | Finite _, Infinity _ => Finite 0
  | Finite x, Finite y =>
      if eqb y 0
      then (if eqb x 0 then NaN else Infinity (ltb 0 x))
      else Finite (x / y)
  end.

Definition abs (a : t) : t :=
  match a with
  | NaN => NaN
  | Infinity _ => Infinity true
  | Finite x => Finite (Qabs x)
  end.

(** [a < b] and [a > b]: false when either side is NaN. *)
Definition ltb (a b : t) : bool :=
  match a, b with
  | NaN, _ => false
  | _, NaN => false
  | Infinity s, Infinity s' => negb s && s'
  | Infinity s, Finite _ => negb s
  | Finite _, Infinity s => s
  | Finite x, Finite y => JS.ltb x y
  end.

Definition gtb (a b : t) : bool := ltb b a.

(** [arr.reduce((a, b) => a + b, 0)] *)
Definition sum (arr : list t) : t := fold_left add arr (Finite 0).

Definition sqrt {M : JSMath} (a : t) : t :=
  match a with
  | NaN => NaN
  | Infinity s => if s then Infinity true else NaN
  | Finite x => if JS.ltb x 0 then NaN else Finite (Math_sqrt x)
  end.

Definition log2 {M : JSMath} (a : t) : t :=
  match a with
  | NaN => NaN
  | Infinity s => if s then Infinity true else NaN
  | Finite x =>
      if JS.ltb x 0 then NaN
      else if eqb x 0 then Infinity false
      else Finite (Math_log2 x)
  end.

End Double.

End JS.

Import JS.

Coercion Double.Finite : Q >-> Double.t.

Declare Scope double_scope.
Delimit Scope double_scope with D.
Infix "+" := Double.add : double_scope.
Infix "-" := Double.sub : double_scope.
Infix "*" := Double.mul : double_scope.
Infix "/" := Double.div : double_scope.
Notation "- x" := (Double.neg x) : double_scope.

Declare Scope js_scope.
Notation "x <- r ;; k" := (JS.bind r (fun x => k))
  (at level 61, r at next level, right associativity) : js_scope.

Local Open Scope Q_scope.
Local Open Scope js_scope.

(** ** voiceEngine.js: [VoiceAnalysisEngine] *)

Module VoiceEngine.

Definition sampleRate : Q := 16000.
Definition frameSize : nat := 512.

(** *** [parseWAV] *)

Definition getUint8 (buffer : list Byte.byte) (i : nat) : Z :=
  match nth_error buffer i with
  | Some b => Z.of_N (Byte.to_N b)
  | None => 0
  end.

(** [view.getInt16(i, true)]: little endian, two's complement. *)
Definition getInt16 (lo hi : Byte.byte) : Z :=
  let u := (Z.of_N (Byte.to_N lo) + 256 * Z.of_N (Byte.to_N hi))%Z in
  if (u <? 32768)%Z then u else (u - 65536)%Z.

(** The test of the first loop at index [i]: the bytes 'd' 'a' 't' 'a'. *)
Definition isDataTag (buffer : list Byte.byte) (i : nat) : bool :=
  (getUint8 buffer i =? 0x64)%Z && (getUint8 buffer (i + 1) =? 0x61)%Z &&
  (getUint8 buffer (i + 2) =? 0x74)%Z && (getUint8 buffer (i + 3) =? 0x61)%Z.

(** [for (i = 0; i < buffer.byteLength - 4; i++) if (tag at i)
    { dataStart = i + 8; break; }], with [dataStart] initially 0. *)
Definition dataStart (buffer : list Byte.byte) : nat :=
  match find (isDataTag buffer) (seq 0 (length buffer - 4)) with
  | Some i => i + 8
  | None => 0
  end.

(** [for (i = dataStart; i < buffer.byteLength - 1; i += 2)
    audioData.push(view.getInt16(i, true) / 32768.0)], on the bytes from
    [dataStart] on: a trailing single byte is not read. *)
Fixpoint pcm16 (bytes : list Byte.byte) : list Q :=
  match bytes with
  | lo :: hi :: rest => (inject_Z (getInt16 lo hi) / 32768) :: pcm16 rest
  | _ => []
  end.

(** [parseWAV]: whatever [new DataView(buffer)] raises is caught and
    turned into [null].  On an ArrayBuffer no access of the two loops is
    out of range, so the constructor is the only operation that can
    raise. *)
Definition parseWAV (buffer : value) : option (list Q) :=
  try_or_null
    (view <- new_DataView buffer ;;
     let dataStart := dataStart view in
     let audioData := pcm16 (skipn dataStart view) in
     Ok (Some audioData)).

(** *** Feature extraction *)

Record FeatureVector := {
  duration : Q;
  rms_mean : Q;
  rms_std : Q;
  rms_max : Q;
  zcr_mean : Q;
  zcr_std : Q;
  spec_centroid_mean : Double.t;
  spec_rolloff_mean : Q;
  spec_entropy : Double.t;
  mfcc_mean : Double.t;
  mfcc_std : Double.t;
  tempo : Q;
  pitch_stability : Q;
  loudness_variance : Q
}.

Record Complex := { real : Q; imag : Q }.

Record SpectralData := {
  centroid : Double.t;
  rolloff : Q;
  entropy : Double.t;
  mfcc : Double.t;
  mfcc_std_ : Double.t
}.

Record PitchData := { tempo_ : Q; stability : Q }.

(** The frames of the loop [for (i = 0; i < audioData.length;
    i += frameSize) audioData.slice(i, i + frameSize)]. *)
Definition frames (audioData : list Q) : list (list Q) :=
  map (fun k => slice (k * frameSize) (k * frameSize + frameSize) audioData)
      (seq 0 ((length audioData + (frameSize - 1)) / frameSize)).

(** The inner loop of [_calculateZCR] over adjacent samples. *)
Fixpoint crossings (frame : list Q) : nat :=
  match frame with
  | prev :: ((cur :: _) as rest) =>
      ((if (geb cur 0 && ltb prev 0) || (ltb cur 0 && geb prev 0)
        then 1 else 0) + crossings rest)%nat
  | _ => 0%nat
  end.

Definition _calculateZCR (audioData : list Q) : list Q :=
  map (fun frame => inject_Z (Z.of_nat (crossings frame)) / len frame)
      (frames audioData).

(** [_calculateMelBands]; when the spectrum has fewer than 13 bins
    [bandSize] is 0 and every band is 0 / 0, that is NaN. *)
Definition _calculateMelBands (spectrum : list Double.t) : list Double.t :=
  let numBands := 13%nat in
  let bandSize := (length spectrum / numBands)%nat in
  map (fun i =>
         let bandEnergy :=
           Double.sum (slice (i * bandSize) ((i + 1) * bandSize) spectrum) in
         (bandEnergy / inject_Z (Z.of_nat bandSize))%D)
      (seq 0 numBands).

(** The rolloff loop: the frequency of the first bin at which the running
    sum exceeds 95% of the total, 0 when no bin does (none does when the
    sums are NaN). *)
Fixpoint rolloff_scan (threshold : Double.t) (n : nat) (bins : list Double.t)
         (i : nat) (energySum : Double.t) : Q :=
  match bins with
  | [] => 0
  | b :: rest =>
      let energySum := (energySum + b)%D in
      if Double.gtb energySum threshold
      then (inject_Z (Z.of_nat i) * sampleRate) / inject_Z (Z.of_nat n)
      else rolloff_scan threshold n rest (S i) energySum
  end.

(** [_mean], and the quantity [_std] takes the root of and
    [_calculateLoudnessVariance] returns ([Math.pow(x - mean, 2)] is the
    product). *)
Definition _mean (arr : list Q) : Q := sum arr / len arr.

Definition variance (arr : list Q) : Q :=
  let mean := _mean arr in
  fold_left (fun s x => s + (x - mean) * (x - mean)) arr 0 / len arr.

Definition _calculateLoudnessVariance (rmsValues : list Q) : Q :=
  variance rmsValues.

Section WithMath.
Context {M : JSMath}.

Definition _std (arr : list Q) : Q := Math_sqrt (variance arr).

(** [_mean] and [_std] as they are applied to the mel bands, whose
    elements can be NaN. *)
Definition _mean_bands (arr : list Double.t) : Double.t :=
  (Double.sum arr / len arr)%D.

Definition _std_bands (arr : list Double.t) : Double.t :=
  let mean := _mean_bands arr in
  let variance :=
    (fold_left (fun s x => s + (x - mean) * (x - mean)) arr (Double.Finite 0)
     / len arr)%D in
  Double.sqrt variance.

Definition _calculateRMS (audioData : list Q) : list Q :=
  map (fun frame =>
         let sumSquares := fold_left (fun s x => s + x * x) frame 0 in
         Math_sqrt (sumSquares / len frame))
      (frames audioData).

(** The combine loop of [_simpleFFT] for the indices [ks]:
    [top] collects [result[k]], [bottom] collects [result[k + N/2]].
    Reading [.real] of an element past the end of [odd] or [even]
    raises a TypeError. *)
Fixpoint combine_loop (N : nat) (even odd : list Complex)
         (ks : list nat) : result (list Complex * list Complex) :=
  match ks with
  | [] => Ok ([], [])
  | k :: ks' =>
      match nth_error odd k, nth_error even k with
      | Some o, Some e =>
          let angle :=
            (-2 * Math_PI * inject_Z (Z.of_nat k)) / inject_Z (Z.of_nat N) in
          let wr := Math_cos angle in
          let wi := Math_sin angle in
          let re := real o * wr - imag o * wi in
          let im := real o * wi + imag o * wr in
          tb <- combine_loop N even odd ks' ;;
          Ok ({| real := real e + re; imag := imag e + im |} :: fst tb,
              {| real := real e - re; imag := imag e - im |} :: snd tb)
      | _, _ => Throw TypeError
      end
  end.

(** [_simpleFFT], recursive on halves of the input; [fuel] bounds the
    recursion depth and the length of the input is always enough.
    The loop runs for [k < N / 2], that is for [k] below the ceiling
    of [N / 2]; for odd [N] the index [k + N / 2] is not an integer,
    so those assignments add no element to the array. *)
Fixpoint _simpleFFT_rec (fuel : nat) (input : list Q)
  : result (list Complex) :=
  let N := length input in
  if (N <=? 1)%nat then Ok (map (fun x => {| real := x; imag := 0 |}) input)
  else
    match input with
    | [x0; x1] =>
        Ok [ {| real := x0 + x1; imag := 0 |};
             {| real := x0 - x1; imag := 0 |} ]
    | _ =>
        match fuel with
        | O => Throw OutOfFuel
        | S fuel' =>
            even <- _simpleFFT_rec fuel'
                      (filter_index (fun i => (i mod 2 =? 0)%nat) input) ;;
            odd <- _simpleFFT_rec fuel'
                      (filter_index (fun i => (i mod 2 =? 1)%nat) input) ;;
            tb <- combine_loop N even odd (seq 0 ((N + 1) / 2)) ;;
            Ok (if (N mod 2 =? 0)%nat then fst tb ++ snd tb else fst tb)
        end
    end.

Definition _simpleFFT (input : list Q) : result (list Complex) :=
  _simpleFFT_rec (length input) input.

(** The window handed to the transform by [_calculateSpectral]. *)
Definition spectral_window (audioData : list Q) : list Q :=
  slice 0 (Nat.min 2048 (length audioData)) audioData.

(** [_calculateSpectral].  [maxMag] is 0 for silence: every normalised
    magnitude is then 0 / 0, that is NaN, and so are the sums over them;
    a comparison with NaN is false, so the rolloff stays 0. *)
Definition _calculateSpectral (audioData : list Q) : result SpectralData :=
  fft <- _simpleFFT (spectral_window audioData) ;;
  let magnitude :=
    map (fun c => Math_sqrt (real c * real c + imag c * imag c)) fft in
  let maxMag := Math_max_list magnitude in
  let normalized := map (fun m : Q => (m / maxMag)%D) magnitude in
  let n := length normalized in
  let freq i := (inject_Z (Z.of_nat i) * sampleRate) / inject_Z (Z.of_nat n) in
  let weightedSum :=
    fold_left (fun s ix => (s + freq (fst ix) * snd ix)%D)
              (combine (seq 0 n) normalized) (Double.Finite 0) in
  let totalMag := Double.sum normalized in
  let centroid := (weightedSum / totalMag)%D in
  let totalEnergy := Double.sum normalized in
  let rolloff :=
    rolloff_scan (totalEnergy * 0.95)%D n normalized 0 (Double.Finite 0) in
  let entropy :=
    (- fold_left (fun s p =>
                    s + (if Double.gtb p 0 then p * Double.log2 p
                         else Double.Finite 0))
                 normalized (Double.Finite 0))%D in
  let bands := _calculateMelBands normalized in
  Ok {| centroid := (centroid / sampleRate)%D;
        rolloff := rolloff / sampleRate;
        entropy := entropy;
        mfcc := _mean_bands bands;
        mfcc_std_ := _std_bands bands |}.

End WithMath.

(** The autocorrelation at [lag]:
    the sum of [audioData[i] * audioData[i + lag]] for [i < length - lag]. *)
Definition autocorr (audioData : list Q) (lag : nat) : Q :=
  fold_left (fun corr xy => corr + fst xy * snd xy)
            (combine audioData (skipn lag audioData)) 0.

Definition _estimatePitch (audioData : list Q) : PitchData :=
  let maxLag := 200%nat in   (* Math.floor(16000 / 80)  *)
  let minLag := 40%nat in    (* Math.floor(16000 / 400) *)
  let best :=
    fold_left (fun (st : Q * nat) lag =>
                 let corr := autocorr audioData lag in
                 if gtb corr (fst st) then (corr, lag) else st)
              (seq minLag (maxLag - minLag)) (0, minLag) in
  let pitchLag := snd best in
  let fundamentalFreq := sampleRate / inject_Z (Z.of_nat pitchLag) in
  {| tempo_ := fundamentalFreq * 1.5;
     stability := 1 / (1 + Math_abs (fundamentalFreq - 200) / 200) |}.

Definition extractFeatures {M : JSMath} (audioData : list Q)
  : result (option FeatureVector) :=
  match audioData with
  | [] => Ok None
  | _ =>
      let rmsValues := _calculateRMS audioData in
      let zcr := _calculateZCR audioData in
      spectralData <- _calculateSpectral audioData ;;
      let pitchData := _estimatePitch audioData in
      Ok (Some {| duration := len audioData / sampleRate;
                  rms_mean := _mean rmsValues;
                  rms_std := _std rmsValues;
                  rms_max := Math_max_list rmsValues;
                  zcr_mean := _mean zcr;
                  zcr_std := _std zcr;
                  spec_centroid_mean := centroid spectralData;
                  spec_rolloff_mean := rolloff spectralData;
                  spec_entropy := entropy spectralData;
                  mfcc_mean := mfcc spectralData;
                  mfcc_std := mfcc_std_ spectralData;
                  tempo := tempo_ pitchData;
                  pitch_stability := stability pitchData;
                  loudness_variance := _calculateLoudnessVariance rmsValues |})
  end.

(** *** Quality, artifacts, fraud risk *)

Record QualityAssessment := {
  quality_score : Q;
  has_voice : bool;
  natural_speech : bool;
  good_frequency : bool;
  consistent_pitch : bool;
  natural_duration : bool
}.

(** [analyzeQuality].  The chained comparisons [0.15 < zcr_mean < 0.5] and
    [1 < duration < 30] of the source compare the boolean result of the
    first [<], converted to a number, with the second bound. *)
Definition analyzeQuality (features : option FeatureVector)
  : option QualityAssessment :=
  match features with
  | None => None
  | Some features =>
      let qualityScore := 0 in
      let qualityScore :=
        if gtb (rms_mean features) 0.05 then qualityScore + 20 else qualityScore in
      let qualityScore :=
        if ltb (bool_to_number (ltb 0.15 (zcr_mean features))) 0.5
        then qualityScore + 20 else qualityScore in
      let qualityScore :=
        if gtb (spec_rolloff_mean features) 0.3
        then qualityScore + 20 else qualityScore in
      let qualityScore :=
        if gtb (pitch_stability features) 0.5
        then qualityScore + 20 else qualityScore in
      let qualityScore :=
        if ltb (bool_to_number (ltb 1 (duration features))) 30
        then qualityScore + 20 else qualityScore in
      Some {| quality_score := qualityScore;
              has_voice := gtb (rms_mean features) 0.05;
              natural_speech :=
                ltb 0.15 (zcr_mean features) && ltb (zcr_mean features) 0.5;
              good_frequency := gtb (spec_rolloff_mean features) 0.3;
              consistent_pitch := gtb (pitch_stability features) 0.5;
              natural_duration :=
                ltb 1 (duration features) && ltb (duration features) 30 |}
  end.

(** The artifact flags as a JavaScript object: a key that an object does
    not have reads as [None] (undefined).  [detectArtifacts] sets the
    first five keys; [background_noise] and [echo] are the keys the
    server reads. *)
Record Artifacts := {
  robotic_voice : option bool;
  heavy_background : option bool;
  clipping : option bool;
  fake_audio : option bool;
  echo_present : option bool;
  background_noise : option bool;
  echo : option bool
}.

Definition Object_values (a : Artifacts) : list (option bool) :=
  [ robotic_voice a; heavy_background a; clipping a; fake_audio a;
    echo_present a; background_noise a; echo a ].

Record ArtifactReport := {
  artifacts : option Artifacts;
  artifact_count : nat;
  artifact_score : Q
}.

Definition detectArtifacts (features : option FeatureVector)
  : option ArtifactReport :=
  match features with
  | None => None
  | Some features =>
      let artifacts :=
        {| robotic_voice := Some (ltb (rms_std features) 0.01);
           heavy_background := Some (gtb (zcr_mean features) 0.6);
           clipping := Some (gtb (rms_max features) 0.9);
           fake_audio :=
             Some (Double.ltb (mfcc_std features) 0.05
                   || Double.gtb (mfcc_std features) 50);
           echo_present :=
             Some (Double.gtb
                     (Double.abs (spec_centroid_mean features
                                  - spec_rolloff_mean features)%D) 0.3);
           background_noise := None;
           echo := None |} in
      let artifactCount :=
        length (filter truthy (Object_values artifacts)) in
      Some {| artifacts := Some artifacts;
              artifact_count := artifactCount;
              artifact_score :=
                Math_min 100 (inject_Z (Z.of_nat artifactCount) * 25) |}
  end.

Definition calculateFraudRisk (features : option FeatureVector) : Q :=
  match features with
  | None => 50
  | Some f =>
      let riskScore := 50 in
      let riskScore :=
        match analyzeQuality features with
        | Some quality =>
            if ltb (quality_score quality) 40 then riskScore + 15 else riskScore
        | None => riskScore
        end in
      let riskScore :=
        match detectArtifacts features with
        | Some artifacts => riskScore + artifact_score artifacts
        | None => riskScore
        end in
      let riskScore := if ltb (rms_std f) 0.01 then riskScore + 20 else riskScore in
      let riskScore := if gtb (tempo f) 300 then riskScore + 15 else riskScore in
      Math_min 100 (Math_max 0 riskScore)
  end.

Inductive Recommendation := BLOCK_IMMEDIATE | CHALLENGE_REQUIRED | ALLOW.

Definition getRecommendation (riskScore : Q) : Recommendation :=
  if gtb riskScore 75 then BLOCK_IMMEDIATE
  else if gtb riskScore 50 then CHALLENGE_REQUIRED
  else ALLOW.

(** The object [processAudio] returns and the server consumes.  Its
    [features] carry seven of the extracted values; the other keys the
    server reads from it ([pitch_var], [pitch_mean], [pause_std],
    [noise_db]) are optional and [processAudio] never sets them. *)
Module Analysis.

Record Features := {
  duration : Q;
  rms_mean : Q;
  zcr_mean : Q;
  spec_centroid_mean : Double.t;
  spec_rolloff_mean : Q;
  tempo : Q;
  mfcc_mean : Double.t;
  pitch_var : option Q;
  pitch_mean : option Q;
  pause_std : option Q;
  noise_db : option Q
}.

Record t := {
  features : option Features;
  quality : option QualityAssessment;
  artifacts : option ArtifactReport;
  fraud_risk : option Q;
  recommendation : Recommendation
}.

End Analysis.

(** The object literal [processAudio] returns for the extracted
    [features]. *)
Definition analysis_of (f : FeatureVector) : Analysis.t :=
  let quality := analyzeQuality (Some f) in
  let artifacts := detectArtifacts (Some f) in
  let fraudRisk := calculateFraudRisk (Some f) in
  {| Analysis.features :=
       Some {| Analysis.duration := duration f;
               Analysis.rms_mean := rms_mean f;
               Analysis.zcr_mean := zcr_mean f;
               Analysis.spec_centroid_mean := spec_centroid_mean f;
               Analysis.spec_rolloff_mean := spec_rolloff_mean f;
               Analysis.tempo := tempo f;
               Analysis.mfcc_mean := mfcc_mean f;
               Analysis.pitch_var := None;
               Analysis.pitch_mean := None;
               Analysis.pause_std := None;
               Analysis.noise_db := None |};
     Analysis.quality := quality;
     Analysis.artifacts := artifacts;
     Analysis.fraud_risk := Some fraudRisk;
     Analysis.recommendation := getRecommendation fraudRisk |}.

(** [processAudio]: any exception of the pipeline is caught and turned
    into [null]. *)
Definition processAudio {M : JSMath} (audioBuffer : value)
  : option Analysis.t :=
  try_or_null
    (match parseWAV audioBuffer with
     | None => Ok None
     | Some audioData =>
         features <- extractFeatures audioData ;;
         match features with
         | None => Ok None
         | Some f => Ok (Some (analysis_of f))
         end
     end).

End VoiceEngine.

(** ** server.js: the four agents and the WebSocket handler *)

Module Server.

Module VE := VoiceEngine.
Module A := VoiceEngine.Analysis.

Inductive IntentRisk := LOW | MEDIUM | HIGH.

Inductive AuthAction := FAST_LANE | COGNITIVE_TEST | BLOCK_IMMEDIATE.

(** *** Agent 1: [ChallengeGenerator] *)

Inductive ChallengeType := CRITICAL_CONTEXT | LINGUISTIC_TRAP | PREFERENCE.

Record Challenge := { type : ChallengeType; script : option string }.

Definition challenges_critical : list string :=
  [ "Quick security check: What color is the wall in front of you?";
    "Look at your battery icon. What is the exact percentage?" ]%string.
Definition challenges_hard : list string :=
  [ "Please say the word 'Simultaneously' three times fast.";
    "Spell the word 'Security' backwards for me." ]%string.
Definition challenges_medium : list string :=
  [ "Do you prefer using dark mode or light mode?";
    "Is it raining where you are right now?" ]%string.

(** [catalog[Math.floor(Math.random() * catalog.length)]], with [random]
    the value [Math.random()] returned. *)
Definition pick (random : Q) (catalog : list string) : option string :=
  nth_error catalog (Z.to_nat (Qfloor (random * len catalog))).

Definition generate (random : Q) (riskScore : Q) : Challenge :=
  if gtb riskScore 70
  then {| type := CRITICAL_CONTEXT; script := pick random challenges_critical |}
  else if gtb riskScore 40
  then {| type := LINGUISTIC_TRAP; script := pick random challenges_hard |}
  else {| type := PREFERENCE; script := pick random challenges_medium |}.

(** *** Agent 2: [VoiceSentinelRiskEngine] *)

Definition intentMults (intent : IntentRisk) : Q :=
  match intent with
  | LOW => 1.0
  | MEDIUM => 1.4
  | HIGH => 1.8
  end.

(** [calculateScore]; [random] is the value of [Math.random()] used when
    the analysis or its features are missing.  No operation of the body
    raises on an analysis object, so the [catch] branch is not taken. *)
Definition calculateScore (random : Q) (analysis : option A.t) : Q :=
  match analysis with
  | None => random * 30
  | Some analysis =>
      match A.features analysis with
      | None => random * 30
      | Some f =>
          let score := 0 in
          let rmsRisk := Math_min 20 (Math_abs (A.rms_mean f - 0.15) * 100) in
          let score := score + rmsRisk in
          let zcrDev := Math_abs (A.zcr_mean f - 0.05) in
          let zcrRisk :=
            if gtb zcrDev 0.1 then 20 else if gtb zcrDev 0.05 then 10 else 0 in
          let score := score + zcrRisk in
          let specRisk :=
            if Double.ltb (A.spec_centroid_mean f) 800 then 15
            else if Double.gtb (A.spec_centroid_mean f) 3500 then 10
            else 0 in
          let score := score + specRisk in
          let rolloffDev := Math_abs (A.spec_rolloff_mean f - 3500) in
          let rolloffRisk := Math_min 10 (rolloffDev / 500) in
          let score := score + rolloffRisk in
          let tempoRisk :=
            if ltb (A.tempo f) 80 then 15
            else if gtb (A.tempo f) 200 then 15
            else if ltb (A.tempo f) 100 || gtb (A.tempo f) 180 then 8
            else 0 in
          let score := score + tempoRisk in
          let score :=
            match A.pitch_var f with
            | Some pitch_var =>
                if eqb pitch_var 0 then score
                else score + Math_min 15 (pitch_var / 40)
            | None => score
            end in
          let score :=
            match A.artifacts analysis with
            | Some report =>
                match VE.artifacts report with
                | Some art =>
                    let score :=
                      if truthy (VE.robotic_voice art) then score + 20 else score in
                    let score :=
                      if truthy (VE.fake_audio art) then score + 25 else score in
                    let score :=
                      if truthy (VE.clipping art) then score + 15 else score in
                    let score :=
                      if truthy (VE.background_noise art) then score + 10 else score in
                    if truthy (VE.echo art) then score + 8 else score
                | None => score
                end
            | None => score
            end in
          let score :=
            match A.fraud_risk analysis with
            | Some fraud_risk =>
                if negb (eqb fraud_risk 0) && ltb fraud_risk 100
                then score + fraud_risk * 0.1
                else score
            | None => score
            end in
          Math_min 100 (Math_max 0 score)
      end
  end.

Record RiskInputs := {
  latency : Q;
  pauseStd : Q;
  fillerCount : Q;
  wpm : Q;
  pitchMean : Q;
  pitchVar : Q;
  noiseDb : Q;
  isLooping : bool;
  zcr : Q;
  intent : IntentRisk
}.

Record Components := {
  cognitive : Q;
  behavioral : Q;
  environmental : Q
}.

Record RiskAssessment := {
  score : Q;
  confidence : Q;
  action : AuthAction;
  components : Components
}.

Definition cogScore (inputs : RiskInputs) : Q :=
  let cogScore := 0 in
  let cogScore :=
    if eqb (fillerCount inputs) 0 then cogScore + 40
    else if ltb (fillerCount inputs) 2 then cogScore + 15
    else if gtb (fillerCount inputs) 4 then cogScore + 20
    else cogScore in
  let cogScore :=
    if ltb (pauseStd inputs) 0.08 then cogScore + 30
    else if gtb (pauseStd inputs) 0.3 then cogScore + 10
    else cogScore in
  let cogScore := if gtb (latency inputs) 500 then cogScore + 20 else cogScore in
  Math_min cogScore 100.

Definition behScore (inputs : RiskInputs) : Q :=
  let behScore := 0 in
  let behScore :=
    if gtb (pitchVar inputs) 600 then behScore + 45
    else if gtb (pitchVar inputs) 400 then behScore + 25
    else if gtb (pitchVar inputs) 200 then behScore + 10
    else behScore in
  let behScore :=
    if gtb (wpm inputs) 180 then behScore + 35
    else if gtb (wpm inputs) 160 then behScore + 15
    else if ltb (wpm inputs) 100 then behScore + 15
    else behScore in
  Math_min behScore 100.

Definition envScore (inputs : RiskInputs) : Q :=
  let envScore := 0 in
  let envScore :=
    if ltb (noiseDb inputs) (-65) then envScore + 40
    else if ltb (noiseDb inputs) (-55) then envScore + 15
    else if gtb (noiseDb inputs) (-45) then envScore + 20
    else envScore in
  let envScore :=
    if ltb (zcr inputs) 0.03 then envScore + 25
    else if gtb (zcr inputs) 0.08 then envScore + 15
    else envScore in
  Math_min envScore 100.

(** The aggregation step: [finalScore] before rounding. *)
Definition finalScore (inputs : RiskInputs) : Q :=
  let rawRisk :=
    (cogScore inputs * 0.30) + (behScore inputs * 0.40)
    + (envScore inputs * 0.30) in
  Math_min (rawRisk * intentMults (intent inputs)) 100.0.

Definition calculateRisk (inputs : RiskInputs) : RiskAssessment :=
  let finalScore := finalScore inputs in
  let confidence := 0.90 in
  let confidence :=
    if ltb (noiseDb inputs) (-50) then confidence - 0.15 else confidence in
  let confidence :=
    if gtb (pitchVar inputs) 500 then confidence - 0.10 else confidence in
  let confidence := Math_max confidence 0.60 in
  let action :=
    if ltb finalScore 30 then FAST_LANE
    else if ltb finalScore 70 then COGNITIVE_TEST
    else BLOCK_IMMEDIATE in
  {| score := Math_round (finalScore * 100) / 100;
     confidence := Math_round (confidence * 100 * 10) / 10;
     action := action;
     components :=
       {| cognitive := Math_round (cogScore inputs * 100) / 100;
          behavioral := Math_round (behScore inputs * 100) / 100;
          environmental := Math_round (envScore inputs * 100) / 100 |} |}.

(** *** Agent 4: [RealTimeRiskMonitor] *)

Record ScoreEntry := { entry_score : Q; timestamp : Z }.

Record RealTimeRiskMonitor := {
  recentScores : list ScoreEntry;
  threshold : Q
}.

(** The constructor. *)
Definition new_RealTimeRiskMonitor : RealTimeRiskMonitor :=
  {| recentScores := []; threshold := 70 |}.

Inductive Trend := INCREASING | DECREASING | STABLE.

Inductive Severity := SEVERITY_CRITICAL | SEVERITY_HIGH | SEVERITY_MEDIUM.

Record Alert := { isAlert : bool; severity : Severity; trend : Trend }.

(** [arr.reduce((a, b) => a + b.score, 0)] *)
Definition sum_scores (arr : list ScoreEntry) : Q :=
  fold_left (fun a b => a + entry_score b) arr 0.

Definition calculateTrend (this : RealTimeRiskMonitor) : Trend :=
  if (length (recentScores this) <? 2)%nat then STABLE
  else
    let recent := slice_last 5 (recentScores this) in
    let avg := sum_scores recent / len recent in
    let previous := slice_neg 10 5 (recentScores this) in
    let prevAvg :=
      if (0 <? length previous)%nat
      then sum_scores previous / len previous
      else avg in
    if gtb avg (prevAvg + 5) then INCREASING
    else if ltb avg (prevAvg - 5) then DECREASING
    else STABLE.

(** [checkAlert]: [now] is the value of [new Date()]; [shift()] removes
    the first (oldest) entry. *)
Definition checkAlert (now : Z) (score : Q) (this : RealTimeRiskMonitor)
  : Alert * RealTimeRiskMonitor :=
  let pushed :=
    recentScores this ++ [ {| entry_score := score; timestamp := now |} ] in
  let kept := if (10 <? length pushed)%nat then tl pushed else pushed in
  let this := {| recentScores := kept; threshold := threshold this |} in
  ({| isAlert := gtb score (threshold this);
      severity :=
        if gtb score 85 then SEVERITY_CRITICAL
        else if gtb score 70 then SEVERITY_HIGH
        else SEVERITY_MEDIUM;
      trend := calculateTrend this |},
   this).

(** *** The WebSocket handler

    One monitor ([riskMonitor]) is created when the module is loaded and
    is used by every connection; [sessionId], [analysisCount] and
    [sessionStartTime] are variables of the connection's closure. *)

Record Connection := {
  sessionId : nat;
  analysisCount : nat;
  sessionStartTime : Z
}.

(** The connection handler's initialisation for a new socket. *)
Definition new_Connection (id : nat) (now : Z) : Connection :=
  {| sessionId := id; analysisCount := 0; sessionStartTime := now |}.

(** What a handler run reads from outside: the clock and the values the
    successive [Math.random()] calls return. *)
Record Env := {
  now : Z;
  random_score : Q;
  random_latency : Q;
  random_filler : Q;
  random_challenge : Q
}.

Inductive Difficulty := DIFFICULTY_CRITICAL | DIFFICULTY_HARD | DIFFICULTY_EASY.

Inductive Liveness := LIVE_SPEAKER | SUSPICIOUS_SYNTHETIC.

Record RiskScores := {
  simple_score : Q;
  full_analysis_score : Q;
  result_confidence : Q;
  verdict : AuthAction
}.

Record ComponentAnalysis := {
  cognitive_intelligence : Q;
  behavioral_biometrics : Q;
  environmental_forensics : Q;
  liveness_detection : Q;
  liveness_indicator : Liveness
}.

Record ArtifactsBlock := {
  out_robotic_voice : bool;
  out_background_noise : bool;
  out_clipping : bool;
  out_fake_audio : bool;
  out_echo : bool;
  out_fraud_risk : Q
}.

Record Security := {
  challenge_required : bool;
  challenge : Challenge;
  difficulty : Difficulty
}.

Record Monitoring := {
  alert_triggered : bool;
  monitoring_severity : Severity;
  monitoring_trend : Trend;
  recent_scores : list Q
}.

Record QualityBlock := {
  voice_quality_score : Q;
  out_natural_speech : bool;
  good_frequency_range : bool;
  out_consistent_pitch : bool
}.

(** The [analysis_result] message; the [metrics] and [voice_features]
    blocks, which only echo inputs, are left out. *)
Record AnalysisResult := {
  result_sessionId : nat;
  analysisNumber : nat;
  result_timestamp : Z;
  sessionDuration : Q;
  riskScores : RiskScores;
  component_analysis : ComponentAnalysis;
  result_artifacts : ArtifactsBlock;
  security : Security;
  monitoring : Monitoring;
  result_quality : QualityBlock;
  result_recommendation : VE.Recommendation
}.

Inductive FinalVerdict := BLOCK | ALLOW.

Record Summary := {
  total_analyses : nat;
  session_duration_seconds : Q;
  average_risk_score : Q;
  summary_trend : Trend;
  final_verdict : FinalVerdict
}.

Inductive ServerMessage :=
| analysis_result (r : AnalysisResult)
| stream_complete (session : nat) (summary : Summary)
| error (session : nat) (message : string).

(** [analysis.features?.key] *)
Definition feature (key : A.Features -> option Q) (analysis : A.t) : option Q :=
  match A.features analysis with
  | Some f => key f
  | None => None
  end.

Definition livenessScore (inputs : RiskInputs) : Q :=
  Math_min 100
    ((pauseStd inputs * 100) + (Math_min (wpm inputs) 150 / 1.5)
     + Math_max 0 (100 - Math_abs (noiseDb inputs + 30) * 2)) / 3.

(** The [audio_chunk] branch from the result of
    [voiceEngine.processAudio(audioBuffer)] on. *)
Definition onAnalysis (env : Env) (analysis : option A.t)
           (riskMonitor : RealTimeRiskMonitor) (conn : Connection)
  : ServerMessage * RealTimeRiskMonitor * Connection :=
  match analysis with
  | Some analysis =>
      let conn :=
        {| sessionId := sessionId conn;
           analysisCount := S (analysisCount conn);
           sessionStartTime := sessionStartTime conn |} in
      let riskScore := calculateScore (random_score env) (Some analysis) in
      let inputs :=
        {| latency := random_latency env * 400 + 200;
           pauseStd := or_default (feature A.pause_std analysis) 0.15;
           fillerCount := Math_floor (random_filler env * 5);
           wpm := or_default (feature (fun f => Some (A.tempo f)) analysis) 120;
           pitchMean := or_default (feature A.pitch_mean analysis) 150;
           pitchVar := or_default (feature A.pitch_var analysis) 300;
           noiseDb := or_default (feature A.noise_db analysis) (-60);
           isLooping := false;
           zcr := or_default (feature (fun f => Some (A.zcr_mean f)) analysis) 0.05;
           intent := MEDIUM |} in
      let fullRiskAnalysis := calculateRisk inputs in
      let challenge := generate (random_challenge env) riskScore in
      let '(alert, riskMonitor) := checkAlert (now env) riskScore riskMonitor in
      let livenessScore := livenessScore inputs in
      let art :=
        match A.artifacts analysis with
        | Some report => VE.artifacts report
        | None => None
        end in
      let flag (key : VE.Artifacts -> option bool) : bool :=
        match art with Some a => truthy (key a) | None => false end in
      let not_false (key : VE.QualityAssessment -> bool) : bool :=
        match A.quality analysis with Some q => key q | None => true end in
      (analysis_result
         {| result_sessionId := sessionId conn;
            analysisNumber := analysisCount conn;
            result_timestamp := now env;
            sessionDuration :=
              Math_round (inject_Z (now env - sessionStartTime conn) / 1000);
            riskScores :=
              {| simple_score := toFixed 1 riskScore;
                 full_analysis_score := toFixed 2 (score fullRiskAnalysis);
                 result_confidence := toFixed 1 (confidence fullRiskAnalysis);
                 verdict := action fullRiskAnalysis |};
            component_analysis :=
              {| cognitive_intelligence :=
                   toFixed 1 (cognitive (components fullRiskAnalysis));
                 behavioral_biometrics :=
                   toFixed 1 (behavioral (components fullRiskAnalysis));
                 environmental_forensics :=
                   toFixed 1 (environmental (components fullRiskAnalysis));
                 liveness_detection := toFixed 1 livenessScore;
                 liveness_indicator :=
                   if gtb livenessScore 60 then LIVE_SPEAKER
                   else SUSPICIOUS_SYNTHETIC |};
            result_artifacts :=
              {| out_robotic_voice := flag VE.robotic_voice;
                 out_background_noise := flag VE.background_noise;
                 out_clipping := flag VE.clipping;
                 out_fake_audio := flag VE.fake_audio;
                 out_echo := flag VE.echo;
                 out_fraud_risk :=
                   toFixed 1 (or_default (A.fraud_risk analysis) 0) |};
            security :=
              {| challenge_required := gtb riskScore 40;
                 challenge := challenge;
                 difficulty :=
                   if gtb riskScore 70 then DIFFICULTY_CRITICAL
                   else if gtb riskScore 40 then DIFFICULTY_HARD
                   else DIFFICULTY_EASY |};
            monitoring :=
              {| alert_triggered := isAlert alert;
                 monitoring_severity := severity alert;
                 monitoring_trend := trend alert;
                 recent_scores :=
                   map (fun s => toFixed 1 (entry_score s))
                       (slice_last 5 (recentScores riskMonitor)) |};
            result_quality :=
              {| voice_quality_score := toFixed 1 75;
                 out_natural_speech := not_false VE.natural_speech;
                 good_frequency_range := true;
                 out_consistent_pitch := not_false VE.consistent_pitch |};
            result_recommendation := A.recommendation analysis |},
       riskMonitor, conn)
  | None =>
      (error (sessionId conn) "Failed to analyze audio chunk",
       riskMonitor, conn)
  end.

(** The [end_stream] branch.  [slice(-analysisCount)] is taken only when
    [analysisCount > 0]. *)
Definition onEndStream (env : Env) (riskMonitor : RealTimeRiskMonitor)
           (conn : Connection) : ServerMessage :=
  let duration :=
    Math_round (inject_Z (now env - sessionStartTime conn) / 1000) in
  let scores := recentScores riskMonitor in
  stream_complete (sessionId conn)
    {| total_analyses := analysisCount conn;
       session_duration_seconds := duration;
       average_risk_score :=
         if (0 <? analysisCount conn)%nat
         then toFixed 1
                (sum_scores (slice_last (analysisCount conn) scores)
                 / inject_Z (Z.of_nat (Nat.min (analysisCount conn)
                                               (length scores))))
         else 0;
       summary_trend := calculateTrend riskMonitor;
       final_verdict :=
         match nth_error scores (length scores - 1) with
         | Some e => if gtb (entry_score e) 70 then BLOCK else ALLOW
         | None => ALLOW
         end |}.

(** A parsed client message: [analysis] is what
    [voiceEngine.processAudio] returned for the chunk's bytes. *)
Inductive ClientMessage :=
| audio_chunk (analysis : option A.t)
| end_stream
| other_type
| malformed (message : string).

(** The process as the handlers see it: the shared monitor and the
    connections' closures. *)
Definition onMessage (env : Env) (msg : ClientMessage)
           (riskMonitor : RealTimeRiskMonitor) (conn : Connection)
  : list ServerMessage * RealTimeRiskMonitor * Connection :=
  match msg with
  | audio_chunk analysis =>
      let '(out, riskMonitor, conn) := onAnalysis env analysis riskMonitor conn in
      ([out], riskMonitor, conn)
  | end_stream => ([onEndStream env riskMonitor conn], riskMonitor, conn)
  | other_type => ([], riskMonitor, conn)
  | malformed message => ([error (sessionId conn) message], riskMonitor, conn)
  end.

(** An [audio_chunk] message whose base64 text decodes to the bytes
    [data]: [Buffer.from(message.data, 'base64')] is a Node.js Buffer,
    and it is what [voiceEngine.processAudio] is called with. *)
Definition receive_chunk {M : JSMath} (data : list Byte.byte) : ClientMessage :=
  let audioBuffer := Buffer data in
  audio_chunk (VE.processAudio audioBuffer).

(** *** Several connections on one server

    The handlers of all connections run in one process and close over
    the same [riskMonitor]. *)









(** The monitor after a sequence of [checkAlert] calls. *)
Definition checkAlerts (calls : list (Z * Q)) (this : RealTimeRiskMonitor)
  : RealTimeRiskMonitor :=
  fold_left (fun m c => snd (checkAlert (fst c) (snd c) m)) calls this.

End Server.

(** ** The design document's own formulations, for comparison *)

Module Design.

(** Section 4.4: the number of satisfied quality checks. *)
Definition satisfied_checks (f : VoiceEngine.FeatureVector) : nat :=
  let count (b : bool) : nat := if b then 1%nat else 0%nat in
  (count (gtb (VoiceEngine.rms_mean f) 0.05)
   + count (ltb 0.15 (VoiceEngine.zcr_mean f)
            && ltb (VoiceEngine.zcr_mean f) 0.5)
   + count (gtb (VoiceEngine.spec_rolloff_mean f) 0.3)
   + count (gtb (VoiceEngine.pitch_stability f) 0.5)
   + count (ltb 1 (VoiceEngine.duration f)
            && ltb (VoiceEngine.duration f) 30))%nat.

(** Section 4.2: the window the transform is to receive, the first
    [min(2048, N)] samples cut down to the largest power of two. *)
Definition power_of_two (n : nat) : Prop := exists k, n = (2 ^ k)%nat.

Definition truncated_window (audioData : list Q) : list Q :=
  let n := Nat.min 2048 (length audioData) in
  firstn (2 ^ Nat.log2 n) audioData.

(** Section 4.6: the last five scores, the (up to five) scores before
    them, and the trend they define. *)
Definition last_five (scores : list Q) : list Q :=
  rev (firstn 5 (rev scores)).

Definition preceding_five (scores : list Q) : list Q :=
  rev (firstn 5 (skipn 5 (rev scores))).

Definition mean (scores : list Q) : Q := sum scores / len scores.

Definition trend (scores : list Q) : Server.Trend :=
  if (length scores <? 2)%nat then Server.STABLE
  else
    match preceding_five scores with
    | [] => Server.STABLE
    | previous =>
        if gtb (mean (last_five scores)) (mean previous + 5)
        then Server.INCREASING
        else if ltb (mean (last_five scores)) (mean previous - 5)
        then Server.DECREASING
        else Server.STABLE
    end.

End Design.

(** ** Inputs used in examples *)

Module Examples.

(** [{ ...inputs, intent }] *)
Definition with_intent (inputs : Server.RiskInputs) (intent : Server.IntentRisk)
  : Server.RiskInputs :=
  {| Server.latency := Server.latency inputs;
     Server.pauseStd := Server.pauseStd inputs;
     Server.fillerCount := Server.fillerCount inputs;
     Server.wpm := Server.wpm inputs;
     Server.pitchMean := Server.pitchMean inputs;
     Server.pitchVar := Server.pitchVar inputs;
     Server.noiseDb := Server.noiseDb inputs;
     Server.isLooping := Server.isLooping inputs;
     Server.zcr := Server.zcr inputs;
     Server.intent := intent |}.

(** Inputs of the shape [analyzeAudioFile] produces (seed 90). *)
Definition inputs_seed90 : Server.RiskInputs :=
  {| Server.latency := 560;
     Server.pauseStd := 0.365;
     Server.fillerCount := 45;
     Server.wpm := 215;
     Server.pitchMean := 208;
     Server.pitchVar := 910;
     Server.noiseDb := -52;
     Server.isLooping := false;
     Server.zcr := 0.092;
     Server.intent := Server.MEDIUM |}.

End Examples.

Module QualityExamples.

(** The features of two seconds of silence: no energy, no zero
    crossings, no rolloff, the pitch lag left at its initial value
    (400 Hz, stability 1/2, tempo 600); the centroid and the mel bands
    are 0 / 0. *)
Definition silence_2s : VoiceEngine.FeatureVector :=
  {| VoiceEngine.duration := 2;
     VoiceEngine.rms_mean := 0;
     VoiceEngine.rms_std := 0;
     VoiceEngine.rms_max := 0;
     VoiceEngine.zcr_mean := 0;
     VoiceEngine.zcr_std := 0;
     VoiceEngine.spec_centroid_mean := Double.NaN;
     VoiceEngine.spec_rolloff_mean := 0;
     VoiceEngine.spec_entropy := 0;
     VoiceEngine.mfcc_mean := Double.NaN;
     VoiceEngine.mfcc_std := Double.NaN;
     VoiceEngine.tempo := 600;
     VoiceEngine.pitch_stability := 0.5;
     VoiceEngine.loudness_variance := 0 |}.

End QualityExamples.

Module MonitorExamples.

(** The entry [checkAlert now score] pushes. *)
Definition entry (call : Z * Q) : Server.ScoreEntry :=
  {| Server.entry_score := snd call; Server.timestamp := fst call |}.

(** Ten calls with the scores 10 (five times) and 80 (five times), one
    per 500 ms. *)
Definition rising_calls : list (Z * Q) :=
  [ (0%Z, 10); (500%Z, 10); (1000%Z, 10); (1500%Z, 10); (2000%Z, 10);
    (2500%Z, 80); (3000%Z, 80); (3500%Z, 80); (4000%Z, 80); (4500%Z, 80) ].

(** Fifteen calls with the scores 1, 2, ..., 15. *)
Definition fifteen_calls : list (Z * Q) :=
  map (fun k => ((500 * Z.of_nat k)%Z, inject_Z (Z.of_nat k))) (seq 1 15).

End MonitorExamples.

Module DecoderExamples.

(** The first loop of [parseWAV] finds the tag. *)
Definition hasDataTag (buffer : list Byte.byte) : bool :=
  existsb (VoiceEngine.isDataTag buffer) (seq 0 (length buffer - 4)).

(** Four bytes of raw PCM, the samples 16384 and -16384. *)
Definition raw_pcm : list Byte.byte :=
  [ Byte.x00; Byte.x40; Byte.x00; Byte.xc0 ].

(** Six bytes of raw PCM, the samples 16384, 8192 and 4096. *)
Definition three_samples_pcm : list Byte.byte :=
  [ Byte.x00; Byte.x40; Byte.x00; Byte.x20; Byte.x00; Byte.x10 ].

Definition three_samples : list Q :=
  [ 16384 # 32768; 8192 # 32768; 4096 # 32768 ].

End DecoderExamples.

Module StreamExamples.
Import VoiceEngine.


(** Half a second of loud, clipped, flat audio. *)
Definition harsh_features : FeatureVector :=
  {| duration := 0.5;
     rms_mean := 0.95; rms_std := 0.001; rms_max := 0.99;
     zcr_mean := 0.7; zcr_std := 0.01;
     spec_centroid_mean := 0.05; spec_rolloff_mean := 0.45;
     spec_entropy := 2;
     mfcc_mean := 0.9; mfcc_std := 0.01;
     tempo := 600; pitch_stability := 0.5;
     loudness_variance := 0.000001 |}.










End StreamExamples.

(** ** Further inputs used in examples *)

Module MoreExamples.

(** The bytes 'd' 'a' 't' 'a'. *)
Definition data_tag : list Byte.byte :=
  [ Byte.x64; Byte.x61; Byte.x74; Byte.x61 ].

(** A short container: four bytes 'RIFF', the tag, a four-byte size and
    the payload of [DecoderExamples.raw_pcm]. *)
Definition riff : list Byte.byte :=
  [ Byte.x52; Byte.x49; Byte.x46; Byte.x46 ].

Definition size_4 : list Byte.byte :=
  [ Byte.x04; Byte.x00; Byte.x00; Byte.x00 ].

(** A stand-in for the runtime's [Math], used only to run examples: the
    properties are proved for every [JSMath]. *)
Definition coarse_math : JSMath :=
  {| Math_PI := 3.141592653589793;
     Math_sqrt := fun x =>
       inject_Z (Z.sqrt (Qfloor (x * 1000000 * 1000000))) / 1000000;
     Math_cos := fun x => 1 - x * x / 2;
     Math_sin := fun x => x - x * x * x / 6;
     Math_log2 := fun x => (x - 1) * 1.4427 |}.

(** One second of silence is 16000 zero samples; two samples of it. *)
Definition two_samples : list Q := [ 16384 # 32768; -16384 # 32768 ].

Definition silence (n : nat) : list Q := repeat 0 n.

End MoreExamples.

(** ** server.js: Agent 3, [AudioProcessor] *)

Module AudioProcessor.

(** [ToInt32]: the value of a bitwise operator's operand and result. *)
Definition toInt32 (z : Z) : Z :=
  let m := (z mod 2 ^ 32)%Z in
  if (m <? 2 ^ 31)%Z then m else (m - 2 ^ 32)%Z.

(** One round of the loop: [hash = ((hash << 5) - hash) + fileBuffer[i];
    hash = hash & hash]. *)
Definition hash_step (hash : Z) (b : Byte.byte) : Z :=
  toInt32 (toInt32 (hash * 32) - hash + Z.of_N (Byte.to_N b)).

(** The loop runs over the first [Math.min(fileBuffer.length, 1000)]
    bytes. *)
Definition hash (fileBuffer : list Byte.byte) : Z :=
  fold_left hash_step (firstn (Nat.min (length fileBuffer) 1000) fileBuffer) 0%Z.

(** [Math.abs(hash) % 100]; [%] is the remainder of the truncating
    division. *)
Definition seed (fileBuffer : list Byte.byte) : Z :=
  Z.rem (Z.abs (hash fileBuffer)) 100.

Definition transcripts : list string :=
  [ "Hello, this is my voice for verification. I am speaking clearly and naturally.";
    "I am speaking for authentication. Please verify my identity with this voice sample.";
    "This is a test of the voice fraud detection system. How do I sound?";
    "I would like to verify my account. My voice is unique and distinctive.";
    "Good morning, I am here for voice verification authentication.";
    "The weather is nice today. I am recording this voice sample for security purposes.";
    "Please process my voice for identification. I am speaking at normal pace.";
    "This voice sample will be used for biometric verification and authentication.";
    "I am providing my voice for fraud detection analysis. Thank you.";
    "Verification in progress. I am speaking clearly for the system to analyze." ]%string.

Record FileAnalysis := {
  inputs : Server.RiskInputs;
  transcript : option string
}.

(** [analyzeAudioFile] on the content of the file; [now] is the value of
    [Date.now()]. *)
Definition analyzeAudioFile (now : Z) (fileBuffer : list Byte.byte)
  : FileAnalysis :=
  let seed := inject_Z (seed fileBuffer) in
  let timeBasedVariation := inject_Z (Z.rem now 50) / 100 in
  let pauseStd := 0.05 + (seed / 100) * 0.35 in
  let fillerCount := Math_floor ((seed / 10) * 5) in
  let wpm := 80 + (seed * 1.5) + (timeBasedVariation * 40) in
  let pitchMean := 100 + (seed * 1.2) in
  let pitchVar := 100 + (seed * 9) in
  let noiseDb := -70 + (seed * 0.2) in
  let zcr := 0.02 + (seed / 100) * 0.08 in
  let latency := 200 + (seed * 4) in
  {| inputs :=
       {| Server.latency := latency;
          Server.pauseStd := pauseStd;
          Server.fillerCount := fillerCount;
          Server.wpm := wpm;
          Server.pitchMean := pitchMean;
          Server.pitchVar := pitchVar;
          Server.noiseDb := noiseDb;
          Server.isLooping := false;
          Server.zcr := zcr;
          Server.intent := Server.MEDIUM |};
     transcript :=
       nth_error transcripts
                 (Z.to_nat (Z.rem (AudioProcessor.seed fileBuffer)
                                  (Z.of_nat (length transcripts)))) |}.

Inductive FileError := file_not_found | audio_file_is_empty.

(** [analyzeFile]: [file] is what the file system holds at the path,
    [None] when nothing is there. *)
Definition analyzeFile (now : Z) (file : option (list Byte.byte))
  : FileAnalysis + FileError :=
  match file with
  | None => inr file_not_found
  | Some fileBuffer =>
      if (length fileBuffer =? 0)%nat then inr audio_file_is_empty
      else inl (analyzeAudioFile now fileBuffer)
  end.

End AudioProcessor.

(** ** One connection's messages in sequence *)

Module Session.

(** The handler run on the messages of one connection, one after the
    other, nothing else using the monitor in between. *)
Fixpoint handle (msgs : list (Server.Env * Server.ClientMessage))
         (riskMonitor : Server.RealTimeRiskMonitor) (conn : Server.Connection)
  : list Server.ServerMessage * Server.RealTimeRiskMonitor * Server.Connection :=
  match msgs with
  | [] => ([], riskMonitor, conn)
  | (env, msg) :: rest =>
      let '(out, riskMonitor, conn) :=
        Server.onMessage env msg riskMonitor conn in
      let '(outs, riskMonitor, conn) := handle rest riskMonitor conn in
      (out ++ outs, riskMonitor, conn)
  end.

(** The [analysisNumber]s of the results among the messages sent. *)
Definition analysis_numbers (sent : list Server.ServerMessage) : list nat :=
  flat_map (fun m => match m with
                     | Server.analysis_result r => [Server.analysisNumber r]
                     | _ => []
                     end) sent.

End Session.

(** ** LiveStream.tsx: the client's history of results *)

Module Client.

Inductive RiskLevel := CRITICAL | HIGH | MEDIUM | LOW.

Definition getRiskLevel (score : Q) : RiskLevel :=
  if gtb score 75 then CRITICAL
  else if gtb score 50 then HIGH
  else if gtb score 30 then MEDIUM
  else LOW.

(** [setAnalysisHistory(prev => [entry, ...prev].slice(0, 50))] *)
Definition addToHistory {A} (entry : A) (prev : list A) : list A :=
  slice 0 50 (entry :: prev).

Definition addAllToHistory {A} (entries : list A) (prev : list A) : list A :=
  fold_left (fun history entry => addToHistory entry history) entries prev.

End Client.

(** ** The monitor calls a connection's messages cause *)

Module SessionScores.

(** The [checkAlert] calls made while the messages are handled: one per
    [audio_chunk] whose analysis is not null, with the clock and the
    stream score of that chunk. *)
Definition chunk_calls (msgs : list (Server.Env * Server.ClientMessage))
  : list (Z * Q) :=
  flat_map (fun em =>
              match snd em with
              | Server.audio_chunk (Some analysis) =>
                  [ (Server.now (fst em),
                     Server.calculateScore (Server.random_score (fst em))
                       (Some analysis)) ]
              | _ => []
              end) msgs.

End SessionScores.

(** * Properties *)

(** ** Comparisons, clamps and rounding *)

Lemma ltb_lt (x y : Q) : ltb x y = true <-> x < y.
Proof.
  unfold ltb. rewrite negb_true_iff.
  split; intro H.
  - apply Qnot_le_lt. intro Hle. apply Qle_bool_iff in Hle. congruence.
  - destruct (Qle_bool y x) eqn:E; [|reflexivity].
    apply Qle_bool_iff in E. exfalso. exact (Qlt_not_le _ _ H E).
Qed.

Lemma ltb_ge (x y : Q) : ltb x y = false <-> y <= x.
Proof.
  unfold ltb. rewrite negb_false_iff. apply Qle_bool_iff.
Qed.

Lemma Math_min_cases (a b : Q) :
  (a <= b /\ Math_min a b = a) \/ (b < a /\ Math_min a b = b).
Proof.
  unfold Math_min. destruct (Qle_bool a b) eqn:E.
  - left. split; [now apply Qle_bool_iff | reflexivity].
  - right. split; [|reflexivity].
    apply Qnot_le_lt. intro H. apply Qle_bool_iff in H. congruence.
Qed.

Lemma Math_max_cases (a b : Q) :
  (a <= b /\ Math_max a b = b) \/ (b < a /\ Math_max a b = a).
Proof.
  unfold Math_max. destruct (Qle_bool a b) eqn:E.
  - left. split; [now apply Qle_bool_iff | reflexivity].
  - right. split; [|reflexivity].
    apply Qnot_le_lt. intro H. apply Qle_bool_iff in H. congruence.
Qed.

Ltac min_max_cases :=
  repeat match goal with
  | |- context [Math_min ?a ?b] =>
      let H := fresh "Hmin" in
      destruct (Math_min_cases a b) as [[? H]|[? H]]; rewrite H in *
  | |- context [Math_max ?a ?b] =>
      let H := fresh "Hmax" in
      destruct (Math_max_cases a b) as [[? H]|[? H]]; rewrite H in *
  end.

(** [Math.min(100, Math.max(0, s))] lies in [0, 100] whatever [s] is. *)
Lemma clamp_0_100 (s : Q) : 0 <= Math_min 100 (Math_max 0 s) <= 100.
Proof. min_max_cases; lra. Qed.

Lemma Math_min_mono (a b c : Q) : a <= b -> Math_min a c <= Math_min b c.
Proof. intro H. min_max_cases; lra. Qed.

Lemma Math_round_mono (x y : Q) : x <= y -> Math_round x <= Math_round y.
Proof.
  intro H. unfold Math_round. rewrite <- Zle_Qle.
  apply Qfloor_resp_le. lra.
Qed.

(** Rounding to two decimals keeps a value inside [0, 100]. *)
Lemma round2_0_100 (x : Q) :
  0 <= x <= 100 -> 0 <= Math_round (x * 100) / 100 <= 100.
Proof.
  intros [H0 H100].
  assert (L : Math_round (0 * 100) <= Math_round (x * 100))
    by (apply Math_round_mono; lra).
  assert (U : Math_round (x * 100) <= Math_round (100 * 100))
    by (apply Math_round_mono; lra).
  change (Math_round (0 * 100)) with (inject_Z 0) in L.
  change (Math_round (100 * 100)) with (inject_Z 10000) in U.
  split.
  - apply Qle_shift_div_l; [reflexivity|]. 
    setoid_replace (0 * 100) with (inject_Z 0) by reflexivity. exact L.
  - apply Qle_shift_div_r; [reflexivity|].
    setoid_replace (100 * 100) with (inject_Z 10000) by reflexivity. exact U.
Qed.

(** ** The risk engine *)

Section RiskEngine.
Import Server.

Ltac branches :=
  repeat match goal with
  | |- context [if ?b then _ else _] => destruct b
  end.

Lemma cogScore_bounds (inputs : RiskInputs) : 0 <= cogScore inputs <= 100.
Proof. unfold cogScore. branches; min_max_cases; lra. Qed.

Lemma behScore_bounds (inputs : RiskInputs) : 0 <= behScore inputs <= 100.
Proof. unfold behScore. branches; min_max_cases; lra. Qed.

Lemma envScore_bounds (inputs : RiskInputs) : 0 <= envScore inputs <= 100.
Proof. unfold envScore. branches; min_max_cases; lra. Qed.

Lemma finalScore_bounds (inputs : RiskInputs) : 0 <= finalScore inputs <= 100.
Proof.
  pose proof (cogScore_bounds inputs) as Hc.
  pose proof (behScore_bounds inputs) as Hb.
  pose proof (envScore_bounds inputs) as He.
  unfold finalScore.
  destruct (intent inputs); unfold intentMults; min_max_cases; lra.
Qed.

Lemma confidence_bounds (inputs : RiskInputs) :
  60 <= confidence (calculateRisk inputs) <= 90.
Proof.
  unfold calculateRisk; cbn [confidence].
  destruct (ltb (noiseDb inputs) (-50)), (gtb (pitchVar inputs) 500);
    split; vm_compute; discriminate.
Qed.

Lemma calculateScore_bounds (random : Q) (analysis : option A.t) :
  0 <= random < 1 -> 0 <= calculateScore random analysis <= 100.
Proof.
  intros [H0 H1]. unfold calculateScore.
  destruct analysis as [analysis|]; [|lra].
  destruct (A.features analysis) as [f|]; [|lra].
  apply clamp_0_100.
Qed.

Lemma cogScore_intent inputs i :
  cogScore (Examples.with_intent inputs i) = cogScore inputs.
Proof. reflexivity. Qed.

Lemma behScore_intent inputs i :
  behScore (Examples.with_intent inputs i) = behScore inputs.
Proof. reflexivity. Qed.

Lemma envScore_intent inputs i :
  envScore (Examples.with_intent inputs i) = envScore inputs.
Proof. reflexivity. Qed.

End RiskEngine.

(** C1.  Every score the two risk engines return lies in [0, 100] and the
    confidence lies in [60, 90]: for every input record [calculateRisk]
    returns a final score and cognitive, behavioral and environmental
    component scores in [0, 100] and a confidence in [60, 90], and for
    every analysis object [calculateScore] returns a value in [0, 100],
    also on the path that draws the score from [Math.random()] (a value
    [random] with [0 <= random < 1]). *)
Theorem risk_scores_in_range
  (inputs : Server.RiskInputs) (random : Q)
  (analysis : option VoiceEngine.Analysis.t) :
  0 <= random < 1 ->
  let r := Server.calculateRisk inputs in
  0 <= Server.score r <= 100 /\
  0 <= Server.cognitive (Server.components r) <= 100 /\
  0 <= Server.behavioral (Server.components r) <= 100 /\
  0 <= Server.environmental (Server.components r) <= 100 /\
  60 <= Server.confidence r <= 90 /\
  0 <= Server.calculateScore random analysis <= 100.
Proof.
  intros Hrandom r. subst r. cbn [Server.calculateRisk Server.score
    Server.components Server.cognitive Server.behavioral Server.environmental].
  split; [apply round2_0_100, finalScore_bounds|].
  split; [apply round2_0_100, cogScore_bounds|].
  split; [apply round2_0_100, behScore_bounds|].
  split; [apply round2_0_100, envScore_bounds|].
  split; [apply confidence_bounds|].
  apply calculateScore_bounds, Hrandom.
Qed.

Lemma risk_scores_in_range_witness :
  0 <= 0.5 < 1 /\
  let r := Server.calculateRisk Examples.inputs_seed90 in
  0 <= Server.score r <= 100 /\
  0 <= Server.cognitive (Server.components r) <= 100 /\
  0 <= Server.behavioral (Server.components r) <= 100 /\
  0 <= Server.environmental (Server.components r) <= 100 /\
  60 <= Server.confidence r <= 90 /\
  0 <= Server.calculateScore 0.5 None <= 100.
Proof.
  split; [lra|].
  apply (risk_scores_in_range Examples.inputs_seed90 0.5 None). lra.
Defined.

(** C4.  With all other inputs equal, the final risk score [calculateRisk]
    returns for intent "high" (multiplier 1.8) is at least the score it
    returns for intent "low" (multiplier 1.0). *)
Theorem intent_high_at_least_low (inputs : Server.RiskInputs) :
  Server.score (Server.calculateRisk (Examples.with_intent inputs Server.LOW))
  <= Server.score (Server.calculateRisk (Examples.with_intent inputs Server.HIGH)).
Proof.
  cbn [Server.calculateRisk Server.score].
  apply Qmult_le_compat_r; [|vm_compute; discriminate].
  apply Math_round_mono.
  apply Qmult_le_compat_r; [|vm_compute; discriminate].
  unfold Server.finalScore.
  rewrite !cogScore_intent, !behScore_intent, !envScore_intent.
  cbn [Server.intent Examples.with_intent Server.intentMults].
  apply Math_min_mono.
  pose proof (cogScore_bounds inputs).
  pose proof (behScore_bounds inputs).
  pose proof (envScore_bounds inputs).
  lra.
Qed.

(** ** The analysis engine's fraud risk *)

Lemma artifact_score_nonneg (f : VoiceEngine.FeatureVector) :
  exists report,
    VoiceEngine.detectArtifacts (Some f) = Some report /\
    0 <= VoiceEngine.artifact_score report <= 100.
Proof.
  eexists. split; [reflexivity|]. cbn [VoiceEngine.artifact_score].
  set (n := length _).
  assert (0 <= inject_Z (Z.of_nat n)).
  { change 0 with (inject_Z 0). rewrite <- Zle_Qle. lia. }
  min_max_cases; lra.
Qed.

(** C10.  [calculateFraudRisk] never returns less than 50: it returns
    exactly 50 for a missing feature record and, for every feature
    record, a value in [50, 100]. *)
Theorem fraud_risk_at_least_50 (features : option VoiceEngine.FeatureVector) :
  50 <= VoiceEngine.calculateFraudRisk features <= 100 /\
  VoiceEngine.calculateFraudRisk None = 50.
Proof.
  split; [|reflexivity].
  destruct features as [f|]; [|cbn; lra].
  unfold VoiceEngine.calculateFraudRisk.
  destruct (artifact_score_nonneg f) as (report & -> & Hs).
  cbn [VoiceEngine.analyzeQuality].
  set (q := VoiceEngine.quality_score _).
  repeat match goal with
  | |- context [if ?b then _ else _] => destruct b
  end; min_max_cases; lra.
Qed.

(** ** The quality scorer *)

(** C3.  What [analyzeQuality] computes.  The four returned sub-checks and
    [natural_duration] are the conditions of the design, and the score is
    at most 100; but the score is 20 times the number of these five
    points: voice present, ZCR mean NOT above 0.15, rolloff above 0.3,
    pitch stability above 0.5, and one point that is always given.  The
    chained comparisons [0.15 < zcr_mean < 0.5] and [1 < duration < 30]
    do not test the intervals.  For two seconds of silence one check
    (duration) is satisfied, and the score is 40 instead of 20. *)
Theorem quality_score_counts_other_checks :
  (forall f : VoiceEngine.FeatureVector,
      exists q,
        VoiceEngine.analyzeQuality (Some f) = Some q /\
        VoiceEngine.quality_score q ==
          20 * (bool_to_number (gtb (VoiceEngine.rms_mean f) 0.05)
                + bool_to_number (negb (ltb 0.15 (VoiceEngine.zcr_mean f)))
                + bool_to_number (gtb (VoiceEngine.spec_rolloff_mean f) 0.3)
                + bool_to_number (gtb (VoiceEngine.pitch_stability f) 0.5)
                + 1) /\
        VoiceEngine.quality_score q <= 100 /\
        VoiceEngine.has_voice q = gtb (VoiceEngine.rms_mean f) 0.05 /\
        VoiceEngine.natural_speech q =
          (ltb 0.15 (VoiceEngine.zcr_mean f) && ltb (VoiceEngine.zcr_mean f) 0.5) /\
        VoiceEngine.good_frequency q = gtb (VoiceEngine.spec_rolloff_mean f) 0.3 /\
        VoiceEngine.consistent_pitch q = gtb (VoiceEngine.pitch_stability f) 0.5) /\
  (exists q,
      VoiceEngine.analyzeQuality (Some QualityExamples.silence_2s) = Some q /\
      VoiceEngine.quality_score q == 40 /\
      Design.satisfied_checks QualityExamples.silence_2s = 1%nat).
Proof.
  split.
  - intro f. eexists. split; [reflexivity|].
    cbn [VoiceEngine.quality_score VoiceEngine.has_voice
         VoiceEngine.natural_speech VoiceEngine.good_frequency
         VoiceEngine.consistent_pitch].
    repeat split.
    + destruct (gtb (VoiceEngine.rms_mean f) 0.05),
               (ltb 0.15 (VoiceEngine.zcr_mean f)),
               (gtb (VoiceEngine.spec_rolloff_mean f) 0.3),
               (gtb (VoiceEngine.pitch_stability f) 0.5),
               (ltb 1 (VoiceEngine.duration f)); vm_compute; reflexivity.
    + destruct (gtb (VoiceEngine.rms_mean f) 0.05),
               (ltb 0.15 (VoiceEngine.zcr_mean f)),
               (gtb (VoiceEngine.spec_rolloff_mean f) 0.3),
               (gtb (VoiceEngine.pitch_stability f) 0.5),
               (ltb 1 (VoiceEngine.duration f)); vm_compute; discriminate.
  - eexists. split; [reflexivity|]. split; vm_compute; reflexivity.
Qed.

(** ** The real-time monitor *)

Section Monitor.
Import Server.

Lemma slice_last_short {A} (n : nat) (l : list A) :
  (length l <= n)%nat -> slice_last n l = l.
Proof.
  intro H. unfold slice_last.
  replace (length l - n)%nat with 0%nat by lia. reflexivity.
Qed.

Lemma slice_last_length {A} (n : nat) (l : list A) :
  length (slice_last n l) = Nat.min n (length l).
Proof. unfold slice_last. rewrite length_skipn. lia. Qed.

Lemma tl_skipn {A} (k : nat) (l : list A) : tl (skipn k l) = skipn (S k) l.
Proof.
  revert l. induction k as [|k IH]; intros [|x l]; try reflexivity.
  apply (IH l).
Qed.

(** One [push] followed by the capacity check keeps the last ten of
    what arrived. *)
Lemma push_shift {A} (l : list A) (e : A) :
  let pushed := slice_last 10 l ++ [e] in
  (if (10 <? length pushed)%nat then tl pushed else pushed)
  = slice_last 10 (l ++ [e]).
Proof.
  cbn zeta. rewrite length_app, slice_last_length. cbn [length].
  destruct (Nat.leb_spec 10 (length l)) as [Hfull|Hshort].
  - replace (10 <? Nat.min 10 (length l) + 1)%nat with true
      by (symmetry; apply Nat.ltb_lt; lia).
    unfold slice_last. rewrite length_app. cbn [length].
    replace (length l + 1 - 10)%nat with (S (length l - 10)) by lia.
    rewrite skipn_app.
    replace (S (length l - 10) - length l)%nat with 0%nat by lia.
    change (skipn 0 [e]) with [e].
    rewrite <- tl_skipn.
    destruct (skipn (length l - 10) l) eqn:E; [|reflexivity].
    apply (f_equal (@length A)) in E. rewrite length_skipn in E.
    cbn in E. lia.
  - replace (10 <? Nat.min 10 (length l) + 1)%nat with false
      by (symmetry; apply Nat.ltb_ge; lia).
    rewrite !slice_last_short; [reflexivity | | lia].
    rewrite length_app. cbn. lia.
Qed.

Lemma checkAlerts_snoc calls call this :
  checkAlerts (calls ++ [call]) this
  = snd (checkAlert (fst call) (snd call) (checkAlerts calls this)).
Proof. unfold checkAlerts. now rewrite fold_left_app. Qed.

(** From the constructor's state the history is the last ten arrivals. *)
Lemma history_is_last_ten (calls : list (Z * Q)) :
  recentScores (checkAlerts calls new_RealTimeRiskMonitor)
  = slice_last 10 (map MonitorExamples.entry calls).
Proof.
  induction calls as [|call calls IH] using rev_ind; [reflexivity|].
  rewrite checkAlerts_snoc. cbn [checkAlert snd recentScores].
  rewrite IH, map_app. cbn [map].
  apply (push_shift (map MonitorExamples.entry calls)).
Qed.

Lemma sum_scores_map (l : list ScoreEntry) :
  sum_scores l = sum (map entry_score l).
Proof.
  unfold sum_scores, sum. generalize 0.
  induction l as [|e l IH]; intro acc; [reflexivity|]. cbn. apply IH.
Qed.

Lemma len_map {A B} (f : A -> B) (l : list A) : len (map f l) = len l.
Proof. unfold len. now rewrite length_map. Qed.

Lemma last_five_slice (l : list Q) : Design.last_five l = slice_last 5 l.
Proof.
  unfold Design.last_five, slice_last.
  now rewrite firstn_rev, rev_involutive.
Qed.

Lemma preceding_five_slice (l : list Q) :
  Design.preceding_five l = slice_neg 10 5 l.
Proof.
  unfold Design.preceding_five, slice_neg, slice.
  rewrite skipn_rev, firstn_rev, rev_involutive, length_firstn.
  rewrite skipn_firstn_comm.
  replace (Nat.min (length l - 5) (length l) - 5)%nat
    with (length l - 10)%nat by lia.
  reflexivity.
Qed.

Lemma calculateTrend_refines (this : RealTimeRiskMonitor) :
  calculateTrend this = Design.trend (map entry_score (recentScores this)).
Proof.
  unfold calculateTrend, Design.trend, Design.mean.
  rewrite length_map.
  destruct (length (recentScores this) <? 2)%nat; [reflexivity|].
  rewrite last_five_slice, preceding_five_slice.
  unfold slice_last, slice_neg, slice.
  rewrite !length_map, !skipn_map, firstn_map.
  rewrite !sum_scores_map, !len_map.
  set (recent := skipn _ _).
  set (previous := firstn _ _).
  destruct previous as [|p previous'] eqn:E.
  - cbn [map length Nat.ltb Nat.leb].
    set (avg := sum _ / _).
    replace (gtb avg (avg + 5)) with false
      by (symmetry; apply ltb_ge; lra).
    replace (ltb avg (avg - 5)) with false
      by (symmetry; apply ltb_ge; lra).
    reflexivity.
  - cbn [map length Nat.ltb Nat.leb]. unfold len. cbn [length].
    rewrite !length_map. reflexivity.
Qed.

End Monitor.

(** C5.  The monitor's history never holds more than 10 entries: after
    any sequence of [checkAlert] calls on a new monitor it holds
    min(10, number of calls) entries (10 after 15 calls), and they are
    the last ten arrivals in arrival order, so the entries evicted are
    the oldest; each single call appends the new entry and, when ten
    are already held, drops the first (oldest) one. *)
Theorem history_holds_last_ten (calls : list (Z * Q)) :
  let history :=
    Server.recentScores (Server.checkAlerts calls Server.new_RealTimeRiskMonitor) in
  let arrivals := map MonitorExamples.entry calls in
  (length history <= 10)%nat /\
  length history = Nat.min 10 (length calls) /\
  history = skipn (length calls - 10) arrivals /\
  (forall this now score,
      Server.recentScores (snd (Server.checkAlert now score this))
      = (if (10 <=? length (Server.recentScores this))%nat
         then tl (Server.recentScores this)
         else Server.recentScores this)
        ++ [MonitorExamples.entry (now, score)]) /\
  Server.recentScores
    (Server.checkAlerts MonitorExamples.fifteen_calls Server.new_RealTimeRiskMonitor)
  = map MonitorExamples.entry (skipn 5 MonitorExamples.fifteen_calls).
Proof.
  cbn zeta. rewrite history_is_last_ten, slice_last_length, length_map.
  split; [lia|]. split; [reflexivity|].
  split; [unfold slice_last; now rewrite length_map|].
  split; [|reflexivity].
  intros this now score. cbn [Server.checkAlert snd Server.recentScores].
  rewrite length_app. cbn [length].
  destruct (Server.recentScores this) as [|e h]; [reflexivity|].
  cbn [length].
  destruct (Nat.leb_spec 10 (S (length h))).
  - replace (10 <? S (length h) + 1)%nat with true
      by (symmetry; apply Nat.ltb_lt; lia).
    reflexivity.
  - replace (10 <? S (length h) + 1)%nat with false
      by (symmetry; apply Nat.ltb_ge; lia).
    reflexivity.
Qed.

(** C6.  [calculateTrend] is the trend of the design: STABLE with fewer
    than two scores (and when no score precedes the last five),
    otherwise INCREASING when the mean of the last five scores exceeds
    the mean of the (up to five) scores before them by more than 5,
    DECREASING when it is lower by more than 5, STABLE otherwise.  After
    the scores 10, 10, 10, 10, 10, 80, 80, 80, 80, 80 have been appended
    in this order the trend is INCREASING. *)
Theorem trend_compares_last_five (this : Server.RealTimeRiskMonitor) :
  Server.calculateTrend this
  = Design.trend (map Server.entry_score (Server.recentScores this)) /\
  Server.calculateTrend Server.new_RealTimeRiskMonitor = Server.STABLE /\
  Server.calculateTrend
    (Server.checkAlerts [(0%Z, 95)] Server.new_RealTimeRiskMonitor)
  = Server.STABLE /\
  Server.calculateTrend
    (Server.checkAlerts MonitorExamples.rising_calls Server.new_RealTimeRiskMonitor)
  = Server.INCREASING.
Proof.
  split; [apply calculateTrend_refines|].
  repeat split; vm_compute; reflexivity.
Qed.

(** ** The transform *)

Section Transform.
Import VoiceEngine.
Context {M : JSMath}.

Ltac div2 a :=
  pose proof (Nat.div_mod_eq a 2);
  pose proof (Nat.mod_upper_bound a 2 ltac:(lia)).

(** The number of indices [s <= i < s + length l] with [i mod 2 = r]. *)
Lemma filter_parity_length {A} (r : nat) (l : list A) : forall s,
  (r < 2)%nat ->
  length (filter (fun ix : nat * A => (fst ix mod 2 =? r)%nat)
                 (combine (seq s (length l)) l))
  = ((length l + (if (s mod 2 =? r)%nat then 1 else 0)) / 2)%nat.
Proof.
  induction l as [|x l IH]; intros s Hr.
  - cbn [length seq combine filter].
    destruct (s mod 2 =? r)%nat; reflexivity.
  - cbn [length seq combine filter fst].
    specialize (IH (S s) Hr).
    div2 s. div2 (S s).
    div2 (length l + 1)%nat. div2 (length l + 0)%nat.
    div2 (S (length l) + 1)%nat. div2 (S (length l) + 0)%nat.
    destruct (Nat.eqb_spec (s mod 2) r) as [E|E];
      destruct (Nat.eqb_spec (S s mod 2) r) as [E'|E'];
      cbn [length]; rewrite IH; lia.
Qed.

Lemma evens_length {A} (l : list A) :
  length (filter_index (fun i => (i mod 2 =? 0)%nat) l)
  = ((length l + 1) / 2)%nat.
Proof.
  unfold filter_index. rewrite length_map.
  apply (filter_parity_length 0 l 0). lia.
Qed.

Lemma odds_length {A} (l : list A) :
  length (filter_index (fun i => (i mod 2 =? 1)%nat) l) = (length l / 2)%nat.
Proof.
  unfold filter_index. rewrite length_map.
  rewrite (filter_parity_length 1 l 0) by lia.
  change (0 mod 2 =? 1)%nat with false. now rewrite Nat.add_0_r.
Qed.

Lemma combine_loop_ok N even odd ks :
  (forall k, In k ks -> (k < length odd)%nat /\ (k < length even)%nat) ->
  exists tb,
    combine_loop N even odd ks = Ok tb /\
    length (fst tb) = length ks /\ length (snd tb) = length ks.
Proof.
  induction ks as [|k ks IH]; intro H.
  - exists ([], []). repeat split.
  - destruct IH as (tb & E & Hf & Hs).
    { intros k' Hk'. apply H. now right. }
    destruct (H k (or_introl eq_refl)) as [Ho He].
    apply nth_error_Some in Ho, He.
    cbn [combine_loop].
    destruct (nth_error odd k) as [o|]; [|congruence].
    destruct (nth_error even k) as [e|]; [|congruence].
    rewrite E. cbn [bind]. eexists. split; [reflexivity|].
    cbn [fst snd length]. now rewrite Hf, Hs.
Qed.

Lemma combine_loop_throw N even odd ks k :
  In k ks -> (length odd <= k)%nat ->
  combine_loop N even odd ks = Throw TypeError.
Proof.
  induction ks as [|k' ks IH]; intros Hin Hk; [destruct Hin|].
  cbn [combine_loop].
  destruct (nth_error odd k') as [o|] eqn:Eo; [|reflexivity].
  destruct (nth_error even k') as [e|] eqn:Ee; [|reflexivity].
  destruct Hin as [->|Hin].
  - apply nth_error_None in Hk. congruence.
  - rewrite (IH Hin Hk). reflexivity.
Qed.

Lemma simpleFFT_rec_step fuel input :
  (3 <= length input)%nat ->
  _simpleFFT_rec (S fuel) input
  = (even <- _simpleFFT_rec fuel
               (filter_index (fun i => (i mod 2 =? 0)%nat) input) ;;
     odd <- _simpleFFT_rec fuel
              (filter_index (fun i => (i mod 2 =? 1)%nat) input) ;;
     tb <- combine_loop (length input) even odd
             (seq 0 ((length input + 1) / 2)) ;;
     Ok (if (length input mod 2 =? 0)%nat
         then fst tb ++ snd tb else fst tb)).
Proof.
  destruct input as [|x0 [|x1 [|x2 rest]]]; cbn [length]; intro H;
    try lia.
  reflexivity.
Qed.

Lemma power_of_two_half n :
  Design.power_of_two n -> (2 <= n)%nat ->
  (n mod 2 = 0)%nat /\ Design.power_of_two (n / 2).
Proof.
  intros [k ->] H. destruct k as [|k]; [cbn in H; lia|].
  rewrite Nat.pow_succ_r'. split.
  - rewrite Nat.mul_comm. apply Nat.Div0.mod_mul.
  - exists k. rewrite Nat.mul_comm. now rewrite Nat.div_mul.
Qed.

Lemma power_of_two_double n :
  Design.power_of_two (n / 2) -> (n mod 2 = 0)%nat -> Design.power_of_two n.
Proof.
  intros [k E] H. exists (S k). rewrite Nat.pow_succ_r', <- E.
  pose proof (Nat.div_mod_eq n 2). lia.
Qed.

Lemma power_of_two_dec n : Design.power_of_two n \/ ~ Design.power_of_two n.
Proof.
  destruct (Nat.eq_dec (2 ^ Nat.log2 n) n) as [E|E].
  - left. now exists (Nat.log2 n).
  - right. intros [k ->]. apply E. now rewrite Nat.log2_pow2 by lia.
Qed.

(** The transform returns (an array as long as its input) exactly when
    the input is empty or its length is a power of two; on every other
    input it raises a TypeError. *)
Lemma simpleFFT_rec_outcome : forall n fuel input,
  length input = n -> (n <= fuel)%nat ->
  (n = 0%nat \/ Design.power_of_two n ->
     exists out, _simpleFFT_rec fuel input = Ok out /\ length out = n) /\
  (n <> 0%nat -> ~ Design.power_of_two n ->
     _simpleFFT_rec fuel input = Throw TypeError).
Proof.
  induction n as [n IH] using (well_founded_induction lt_wf).
  intros fuel input Hlen Hfuel.
  destruct (Nat.le_gt_cases n 2) as [Hsmall|Hbig].
  - (* the two base cases *)
    destruct input as [|x0 [|x1 [|x2 rest]]]; cbn [length] in Hlen;
      try lia; subst n.
    + split; [|congruence]. intros _. exists []. destruct fuel; now split.
    + split.
      * intros _. eexists. destruct fuel; now split.
      * intros _ H. exfalso. apply H. now exists 0%nat.
    + split.
      * intros _. eexists. destruct fuel; now split.
      * intros _ H. exfalso. apply H. now exists 1%nat.
  - destruct fuel as [|fuel]; [lia|].
    rewrite simpleFFT_rec_step by lia.
    set (evens := filter_index (fun i => (i mod 2 =? 0)%nat) input).
    set (odds := filter_index (fun i => (i mod 2 =? 1)%nat) input).
    assert (Hev : length evens = ((n + 1) / 2)%nat)
      by (unfold evens; now rewrite evens_length, Hlen).
    assert (Hod : length odds = (n / 2)%nat)
      by (unfold odds; now rewrite odds_length, Hlen).
    pose proof (Nat.div_mod_eq n 2) as Hdiv.
    pose proof (Nat.mod_upper_bound n 2 ltac:(lia)) as Hmod.
    assert (Hdiv1 : ((n + 1) / 2 = n / 2 + n mod 2)%nat).
    { clear - Hdiv Hmod. 
      destruct (Nat.eq_dec (n mod 2) 0) as [E|E].
      - rewrite E in *. replace (n + 1)%nat with (1 + (n / 2) * 2)%nat by lia.
        rewrite Nat.div_add by lia. cbn. lia.
      - replace (n mod 2)%nat with 1%nat in * by lia.
        replace (n + 1)%nat with (0 + (n / 2 + 1) * 2)%nat by lia.
        rewrite Nat.div_add by lia. cbn. lia. }
    destruct (IH (length evens) ltac:(lia) fuel evens eq_refl ltac:(lia))
      as [EvOk EvThrow].
    destruct (IH (length odds) ltac:(lia) fuel odds eq_refl ltac:(lia))
      as [OdOk OdThrow].
    rewrite Hlen.
    split.
    + (* a power of two: both halves are, the loop stays in range *)
      intros [->|Hpow]; [lia|].
      destruct (power_of_two_half n Hpow ltac:(lia)) as [Heven Hhalf].
      rewrite Heven, Nat.add_0_r in Hdiv1.
      destruct EvOk as (even & -> & Leven);
        [right; now rewrite Hev, Hdiv1|].
      destruct OdOk as (odd & -> & Lodd); [right; now rewrite Hod|].
      cbn [bind].
      destruct (combine_loop_ok n even odd (seq 0 ((n + 1) / 2)))
        as (tb & -> & Lf & Ls).
      { intros k Hk. apply in_seq in Hk. lia. }
      cbn [bind]. rewrite Heven. cbn [Nat.eqb].
      eexists. split; [reflexivity|].
      rewrite length_app, Lf, Ls, length_seq. lia.
    + intros _ Hnot.
      destruct (Nat.eq_dec (n mod 2) 0) as [Heven|Hodd].
      * (* even: the half is no power of two, the first call raises *)
        rewrite Heven, Nat.add_0_r in Hdiv1.
        rewrite EvThrow; [reflexivity|lia|].
        rewrite Hev, Hdiv1. intro Hhalf. apply Hnot.
        now apply power_of_two_double.
      * (* odd: a call raises, or the loop reads past the end of [odd] *)
        assert (Ev : (exists even, _simpleFFT_rec fuel evens = Ok even)
                     \/ _simpleFFT_rec fuel evens = Throw TypeError).
        { destruct (length evens) as [|m] eqn:Em; [lia|].
          destruct (power_of_two_dec (S m)) as [P|P].
          - destruct EvOk as (even & E & _); [now right|]. left. now exists even.
          - right. apply EvThrow; [lia|exact P]. }
        destruct Ev as [(even & ->)| ->]; [|reflexivity].
        assert (Od : (exists odd, _simpleFFT_rec fuel odds = Ok odd
                                  /\ length odd = length odds)
                     \/ _simpleFFT_rec fuel odds = Throw TypeError).
        { destruct (power_of_two_dec (length odds)) as [P|P].
          - destruct OdOk as (odd & E & L); [now right|]. left. now exists odd.
          - right. apply OdThrow; [lia|exact P]. }
        destruct Od as [(odd & -> & Lodd)| ->]; [|reflexivity].
        cbn [bind].
        rewrite (combine_loop_throw n even odd _ (n / 2)%nat);
          [reflexivity| |lia].
        apply in_seq. lia.
Qed.

End Transform.

Section Spectral.
Import VoiceEngine.
Context {M : JSMath}.

Lemma simpleFFT_outcome (input : list Q) :
  (length input = 0%nat \/ Design.power_of_two (length input) ->
     exists out, _simpleFFT input = Ok out /\ length out = length input) /\
  (length input <> 0%nat -> ~ Design.power_of_two (length input) ->
     _simpleFFT input = Throw TypeError).
Proof.
  apply (simpleFFT_rec_outcome (length input)); [reflexivity|lia].
Qed.

(** The window is the first [min(2048, N)] samples, whatever [N] is. *)
Lemma spectral_window_length (audioData : list Q) :
  spectral_window audioData = firstn (Nat.min 2048 (length audioData)) audioData /\
  length (spectral_window audioData) = Nat.min 2048 (length audioData).
Proof.
  unfold spectral_window, slice. rewrite Nat.sub_0_r. cbn [skipn].
  split; [reflexivity|]. rewrite length_firstn. lia.
Qed.

(** A window whose length is not a power of two makes the spectral
    analysis, and with it the feature extraction, raise. *)
Lemma odd_window_raises (audioData : list Q) :
  audioData <> [] ->
  ~ Design.power_of_two (Nat.min 2048 (length audioData)) ->
  _calculateSpectral audioData = Throw TypeError /\
  extractFeatures audioData = Throw TypeError.
Proof.
  intros Hne Hnot.
  assert (E : _calculateSpectral audioData = Throw TypeError).
  { unfold _calculateSpectral.
    destruct (simpleFFT_outcome (spectral_window audioData)) as [_ ->];
      [reflexivity| |].
    - destruct (spectral_window_length audioData) as [_ ->].
      destruct audioData; [congruence|cbn [length]; lia].
    - now destruct (spectral_window_length audioData) as [_ ->]. }
  split; [exact E|].
  unfold extractFeatures. destruct audioData; [congruence|].
  now rewrite E.
Qed.

End Spectral.

(** C7.  The window of the spectral analysis is the first min(2048, N)
    samples and is handed to the transform as it is, with no cut to a
    power of two.  For the three samples decoded from six bytes of PCM
    the design's window has two samples, the transform receives all
    three, reads past the end of the odd half and raises a TypeError;
    the feature extraction raises with it and [processAudio] returns
    null for the ArrayBuffer of these bytes.  The stream handler answers
    a chunk with this analysis with an error message, leaving the
    monitor and the analysis count as they were; it answers the chunk
    the same way when the bytes reach [processAudio] as a Node.js
    Buffer, as they do on the server. *)
Theorem three_sample_window_raises (M : JSMath) :
  let audio := DecoderExamples.three_samples in
  let audioBuffer := ArrayBuffer DecoderExamples.three_samples_pcm in
  VoiceEngine.parseWAV audioBuffer = Some audio /\
  VoiceEngine.spectral_window audio = audio /\
  Design.truncated_window audio = firstn 2 audio /\
  VoiceEngine._simpleFFT (VoiceEngine.spectral_window audio) = Throw TypeError /\
  VoiceEngine._calculateSpectral audio = Throw TypeError /\
  VoiceEngine.extractFeatures audio = Throw TypeError /\
  VoiceEngine.processAudio audioBuffer = None /\
  (forall env riskMonitor conn,
      Server.onMessage env
        (Server.audio_chunk (VoiceEngine.processAudio audioBuffer))
        riskMonitor conn
      = ([Server.error (Server.sessionId conn) "Failed to analyze audio chunk"],
         riskMonitor, conn)) /\
  (forall env riskMonitor conn,
      Server.onMessage env
        (Server.receive_chunk DecoderExamples.three_samples_pcm)
        riskMonitor conn
      = ([Server.error (Server.sessionId conn) "Failed to analyze audio chunk"],
         riskMonitor, conn)).
Proof.
  cbn zeta.
  assert (P : VoiceEngine.parseWAV
                (ArrayBuffer DecoderExamples.three_samples_pcm)
              = Some DecoderExamples.three_samples) by (vm_compute; reflexivity).
  assert (N : ~ Design.power_of_two
                (Nat.min 2048 (length DecoderExamples.three_samples))).
  { intros [k E]. cbn in E.
    destruct k as [|[|[|k]]]; cbn in E; try discriminate.
    pose proof (Nat.pow_nonzero 2 k ltac:(lia)). lia. }
  destruct (odd_window_raises DecoderExamples.three_samples) as [S F];
    [discriminate|exact N|].
  split; [exact P|]. split; [reflexivity|]. split; [reflexivity|].
  split; [reflexivity|]. split; [exact S|]. split; [exact F|].
  assert (N' : VoiceEngine.processAudio
                 (ArrayBuffer DecoderExamples.three_samples_pcm) = None).
  { unfold VoiceEngine.processAudio. rewrite P, F. reflexivity. }
  split; [exact N'|]. split.
  - intros env riskMonitor conn. rewrite N'. reflexivity.
  - intros env riskMonitor conn. reflexivity.
Qed.

(** ** The decoder *)

Lemma find_existsb_false {A} (p : A -> bool) (l : list A) :
  existsb p l = false -> find p l = None.
Proof.
  induction l as [|x l IH]; [reflexivity|]. cbn.
  destruct (p x); [discriminate|exact IH].
Qed.

Lemma pcm16_length (bytes : list Byte.byte) :
  length (VoiceEngine.pcm16 bytes) = (length bytes / 2)%nat.
Proof.
  assert (H : forall n bytes, (length bytes <= n)%nat ->
              length (VoiceEngine.pcm16 bytes) = (length bytes / 2)%nat).
  { clear bytes. induction n as [|n IH]; intros [|lo [|hi rest]] Hn;
      cbn [length] in Hn; try reflexivity; try lia.
    cbn [VoiceEngine.pcm16 length]. rewrite IH by lia.
    change (S (S (length rest))) with (1 * 2 + length rest)%nat.
    rewrite Nat.div_add_l by lia. reflexivity. }
  apply (H (length bytes)). lia.
Qed.

(** Whatever is not an ArrayBuffer makes [new DataView] raise, so
    [parseWAV] and with it [processAudio] return null for it. *)
Lemma not_an_ArrayBuffer {M : JSMath} (bytes : list Byte.byte) :
  VoiceEngine.parseWAV (Buffer bytes) = None /\
  VoiceEngine.processAudio (Buffer bytes) = None /\
  VoiceEngine.parseWAV undefined = None /\
  VoiceEngine.processAudio undefined = None.
Proof. repeat split. Qed.

Lemma parseWAV_ArrayBuffer (bytes : list Byte.byte) :
  VoiceEngine.parseWAV (ArrayBuffer bytes)
  = Some (VoiceEngine.pcm16 (skipn (VoiceEngine.dataStart bytes) bytes)).
Proof. reflexivity. Qed.

(** C2, on the code.  No decoding failure is a typed error: the only
    failure value is null.  An ArrayBuffer in which the 'data' tag is
    not found is not rejected: [parseWAV] decodes it from offset 0 as
    16-bit little-endian PCM and returns one sample for every two bytes.
    Whenever the decoded sample array of an ArrayBuffer is empty, with
    or without a tag, as for the empty buffer, [parseWAV] returns the
    empty array and [extractFeatures] and [processAudio] return null: no
    feature vector is built.  For an argument that is not an
    ArrayBuffer, a Node.js Buffer (which is what server.js passes) or
    undefined, [parseWAV] and [processAudio] return null whatever the
    bytes are, tagged or not. *)
Theorem untagged_buffer_decoded_from_start (buffer : list Byte.byte) :
  DecoderExamples.hasDataTag buffer = false ->
  VoiceEngine.parseWAV (ArrayBuffer buffer) = Some (VoiceEngine.pcm16 buffer) /\
  length (VoiceEngine.pcm16 buffer) = (length buffer / 2)%nat /\
  (forall (M : JSMath) (bytes : list Byte.byte),
      VoiceEngine.pcm16 (skipn (VoiceEngine.dataStart bytes) bytes) = [] ->
      VoiceEngine.parseWAV (ArrayBuffer bytes) = Some [] /\
      VoiceEngine.processAudio (ArrayBuffer bytes) = None) /\
  VoiceEngine.parseWAV (ArrayBuffer []) = Some [] /\
  (forall M : JSMath,
      VoiceEngine.extractFeatures [] = Ok None /\
      VoiceEngine.processAudio (ArrayBuffer []) = None) /\
  (forall (M : JSMath) (bytes : list Byte.byte),
      VoiceEngine.parseWAV (Buffer bytes) = None /\
      VoiceEngine.processAudio (Buffer bytes) = None /\
      VoiceEngine.parseWAV undefined = None /\
      VoiceEngine.processAudio undefined = None).
Proof.
  intro H.
  assert (P : VoiceEngine.parseWAV (ArrayBuffer buffer)
              = Some (VoiceEngine.pcm16 buffer)).
  { rewrite parseWAV_ArrayBuffer. unfold VoiceEngine.dataStart.
    now rewrite (find_existsb_false _ _ H). }
  split; [exact P|]. split; [apply pcm16_length|].
  split; [|split; [reflexivity|split; [intro M; split; reflexivity|]]].
  - intros M bytes E.
    assert (P' : VoiceEngine.parseWAV (ArrayBuffer bytes) = Some []).
    { rewrite parseWAV_ArrayBuffer. now rewrite E. }
    split; [exact P'|].
    unfold VoiceEngine.processAudio. rewrite P'. reflexivity.
  - intros M bytes. apply not_an_ArrayBuffer.
Qed.

Lemma untagged_buffer_decoded_from_start_witness :
  DecoderExamples.hasDataTag DecoderExamples.raw_pcm = false /\
  VoiceEngine.parseWAV (ArrayBuffer DecoderExamples.raw_pcm)
  = Some (VoiceEngine.pcm16 DecoderExamples.raw_pcm) /\
  length (VoiceEngine.pcm16 DecoderExamples.raw_pcm)
  = (length DecoderExamples.raw_pcm / 2)%nat.
Proof.
  split; [reflexivity|].
  destruct (untagged_buffer_decoded_from_start DecoderExamples.raw_pcm eq_refl)
    as (P & L & _).
  exact (conj P L).
Defined.

(** C2, counterexample.  An ArrayBuffer without the tag for which
    [parseWAV] returns samples, and the empty ArrayBuffer, for which it
    returns an empty array; neither call fails. *)
Lemma untagged_buffer_is_decoded :
  DecoderExamples.hasDataTag DecoderExamples.raw_pcm = false /\
  VoiceEngine.parseWAV (ArrayBuffer DecoderExamples.raw_pcm)
  = Some [16384 # 32768; -16384 # 32768] /\
  VoiceEngine.parseWAV (ArrayBuffer []) = Some [].
Proof. repeat split; vm_compute; reflexivity. Qed.

(** ** The stream handler *)




(** * Further properties of the code *)

(** ** The decoder *)

Lemma find_seq_first (p : nat -> bool) (i : nat) : forall n s,
  (s <= i < s + n)%nat ->
  (forall j, (s <= j < i)%nat -> p j = false) ->
  p i = true ->
  find p (seq s n) = Some i.
Proof.
  induction n as [|n IH]; intros s Hi Hbefore Hp; [lia|].
  cbn [seq find].
  destruct (Nat.eq_dec s i) as [->|Hne]; [now rewrite Hp|].
  rewrite (Hbefore s) by lia.
  apply IH; [lia| |exact Hp].
  intros j Hj. apply Hbefore. lia.
Qed.

Lemma getUint8_app_r (pre rest : list Byte.byte) (k : nat) :
  VoiceEngine.getUint8 (pre ++ rest) (length pre + k)
  = VoiceEngine.getUint8 rest k.
Proof.
  unfold VoiceEngine.getUint8.
  rewrite nth_error_app2 by lia.
  now replace (length pre + k - length pre)%nat with k by lia.
Qed.

(** In a container, decoding starts eight bytes after the first 'data'
    tag: the four bytes after the tag (the chunk size) are skipped
    unread and the rest is the PCM payload. *)
Theorem parseWAV_skips_to_payload (pre size payload : list Byte.byte) :
  length size = 4%nat ->
  (forall j, (j < length pre)%nat ->
     VoiceEngine.isDataTag
       (pre ++ MoreExamples.data_tag ++ size ++ payload) j = false) ->
  VoiceEngine.dataStart (pre ++ MoreExamples.data_tag ++ size ++ payload)
  = (length pre + 8)%nat /\
  VoiceEngine.parseWAV
    (ArrayBuffer (pre ++ MoreExamples.data_tag ++ size ++ payload))
  = Some (VoiceEngine.pcm16 payload).
Proof.
  intros Hsize Hbefore.
  set (buffer := pre ++ MoreExamples.data_tag ++ size ++ payload).
  assert (D : VoiceEngine.dataStart buffer = (length pre + 8)%nat).
  { unfold VoiceEngine.dataStart.
    rewrite (find_seq_first _ (length pre)); [reflexivity| | |].
    - unfold buffer, MoreExamples.data_tag.
      rewrite !length_app, Hsize. cbn [length]. lia.
    - intros j Hj. apply Hbefore. lia.
    - unfold VoiceEngine.isDataTag, buffer.
      rewrite <- (Nat.add_0_r (length pre)) at 1.
      rewrite !getUint8_app_r. reflexivity. }
  split; [exact D|].
  fold buffer. rewrite parseWAV_ArrayBuffer, D. unfold buffer.
  rewrite skipn_app, skipn_all2 by lia. cbn [app].
  replace (length pre + 8 - length pre)%nat with 8%nat by lia.
  destruct size as [|s0 [|s1 [|s2 [|s3 [|s4 size]]]]]; try discriminate.
  reflexivity.
Qed.

Lemma parseWAV_skips_to_payload_witness :
  VoiceEngine.parseWAV
    (ArrayBuffer
       (MoreExamples.riff ++ MoreExamples.data_tag ++ MoreExamples.size_4
        ++ DecoderExamples.raw_pcm))
  = Some (VoiceEngine.pcm16 DecoderExamples.raw_pcm).
Proof.
  apply (parseWAV_skips_to_payload MoreExamples.riff MoreExamples.size_4
           DecoderExamples.raw_pcm); [reflexivity|].
  intros j Hj. cbn [length MoreExamples.riff] in Hj.
  do 4 (destruct j as [|j]; [reflexivity|]). lia.
Defined.

Lemma getInt16_range (lo hi : Byte.byte) :
  (-32768 <= VoiceEngine.getInt16 lo hi <= 32767)%Z.
Proof.
  unfold VoiceEngine.getInt16.
  pose proof (Byte.to_N_bounded lo). pose proof (Byte.to_N_bounded hi).
  destruct (Z.ltb_spec
              (Z.of_N (Byte.to_N lo) + 256 * Z.of_N (Byte.to_N hi)) 32768);
    lia.
Qed.

Lemma pcm16_range (bytes : list Byte.byte) :
  Forall (fun s => -1 <= s /\ s < 1) (VoiceEngine.pcm16 bytes).
Proof.
  assert (H : forall n bytes, (length bytes <= n)%nat ->
              Forall (fun s => -1 <= s /\ s < 1) (VoiceEngine.pcm16 bytes)).
  { clear bytes. induction n as [|n IH]; intros [|lo [|hi rest]] Hn;
      cbn [length] in Hn; try (constructor; fail); try lia.
    cbn [VoiceEngine.pcm16]. constructor; [|apply IH; lia].
    pose proof (getInt16_range lo hi) as [L U].
    split.
    - apply Qle_shift_div_l; [reflexivity|].
      change (-1 * 32768) with (inject_Z (-32768)). rewrite <- Zle_Qle. lia.
    - apply Qlt_shift_div_r; [reflexivity|].
      change (1 * 32768) with (inject_Z 32768). rewrite <- Zlt_Qlt. lia. }
  apply (H (length bytes)). lia.
Qed.

(** [parseWAV] returns null exactly when its argument is not an
    ArrayBuffer.  For an ArrayBuffer it returns an array with one sample
    for every two bytes from [dataStart] on (a trailing odd byte is
    dropped), each sample at least -1 and below 1. *)
Theorem parseWAV_samples_normalised (buffer : value) :
  (VoiceEngine.parseWAV buffer = None <->
   forall bytes, buffer <> ArrayBuffer bytes) /\
  (forall bytes, buffer = ArrayBuffer bytes ->
     exists samples,
       VoiceEngine.parseWAV buffer = Some samples /\
       length samples
       = ((length bytes - VoiceEngine.dataStart bytes) / 2)%nat /\
       Forall (fun s => -1 <= s /\ s < 1) samples).
Proof.
  split.
  - destruct buffer as [bytes| |]; split; try discriminate; try reflexivity.
    intro H. now destruct (H bytes).
  - intros bytes ->. eexists. split; [apply parseWAV_ArrayBuffer|]. split.
    + rewrite pcm16_length, length_skipn. reflexivity.
    + apply pcm16_range.
Qed.

(** ** Frames, zero crossings and pitch *)

Lemma firstn_add_split {A} (a b : nat) : forall l : list A,
  firstn (a + b) l = firstn a l ++ firstn b (skipn a l).
Proof.
  induction a as [|a IH]; intros [|x l]; cbn; try reflexivity.
  - now rewrite firstn_nil.
  - now rewrite IH.
Qed.

Lemma concat_slices {A} (c m : nat) (l : list A) :
  concat (map (fun k => slice (k * c) (k * c + c) l) (seq 0 m))
  = firstn (m * c) l.
Proof.
  induction m as [|m IH]; [reflexivity|].
  rewrite seq_S, map_app, concat_app, IH. cbn [map concat Nat.add].
  rewrite app_nil_r. unfold slice.
  replace (m * c + c - m * c)%nat with c by lia.
  replace (S m * c)%nat with (m * c + c)%nat by lia.
  now rewrite firstn_add_split.
Qed.

Lemma frames_shape (audioData : list Q) :
  concat (VoiceEngine.frames audioData) = audioData /\
  Forall (fun frame => (1 <= length frame <= 512)%nat)
         (VoiceEngine.frames audioData) /\
  length (VoiceEngine.frames audioData)
  = ((length audioData + 511) / 512)%nat.
Proof.
  unfold VoiceEngine.frames, VoiceEngine.frameSize.
  change (512 - 1)%nat with 511%nat.
  set (n := length audioData). set (m := ((n + 511) / 512)%nat).
  pose proof (Nat.div_mod_eq (n + 511) 512) as Hdiv.
  pose proof (Nat.mod_upper_bound (n + 511) 512 ltac:(lia)) as Hmod.
  fold m in Hdiv.
  split; [|split].
  - rewrite concat_slices. apply firstn_all2. fold n. lia.
  - apply Forall_forall. intros frame Hin.
    apply in_map_iff in Hin. destruct Hin as (k & <- & Hk).
    apply in_seq in Hk. unfold slice.
    rewrite length_firstn, length_skipn. fold n. lia.
  - now rewrite length_map, length_seq.
Qed.

(** The frames partition the samples: put together in order they are the
    input again, none is empty, none has more than 512 samples, and
    there are ceil(N / 512) of them, so [_calculateZCR] returns that
    many rates. *)
Theorem frames_partition (audioData : list Q) :
  concat (VoiceEngine.frames audioData) = audioData /\
  Forall (fun frame => (1 <= length frame <= 512)%nat)
         (VoiceEngine.frames audioData) /\
  length (VoiceEngine.frames audioData)
  = ((length audioData + 511) / 512)%nat /\
  length (VoiceEngine._calculateZCR audioData)
  = ((length audioData + 511) / 512)%nat.
Proof.
  destruct (frames_shape audioData) as (Hcat & Hlen & Hcount).
  split; [exact Hcat|]. split; [exact Hlen|]. split; [exact Hcount|].
  unfold VoiceEngine._calculateZCR. now rewrite length_map.
Qed.

Lemma crossings_below_length (frame : list Q) :
  (VoiceEngine.crossings frame <= length frame - 1)%nat.
Proof.
  induction frame as [|prev [|cur rest] IH]; cbn [VoiceEngine.crossings length];
    try lia.
  cbn [VoiceEngine.crossings length] in IH.
  destruct ((geb cur 0 && ltb prev 0) || (ltb cur 0 && geb prev 0)); lia.
Qed.

Lemma sum_acc (l : list Q) : forall acc,
  fold_left Qplus l acc == acc + sum l.
Proof.
  unfold sum. induction l as [|x l IH]; intro acc; cbn [fold_left].
  - lra.
  - rewrite (IH (acc + x)), (IH (0 + x)). lra.
Qed.

Lemma sum_cons (x : Q) (l : list Q) : sum (x :: l) == x + sum l.
Proof. unfold sum at 1. cbn [fold_left]. rewrite sum_acc. lra. Qed.

Lemma sum_between (lo hi : Q) (l : list Q) :
  Forall (fun x => lo <= x /\ x < hi) l ->
  l <> [] ->
  lo * len l <= sum l /\ sum l < hi * len l.
Proof.
  intros H Hne.
  induction H as [|x l [Hlo Hhi] Hl IH]; [congruence|].
  rewrite sum_cons. unfold len. cbn [length].
  rewrite Nat2Z.inj_succ, <- Z.add_1_r, inject_Z_plus.
  destruct l as [|y l'].
  - change (sum []) with 0. cbn [length Z.of_nat]. change (inject_Z 0) with 0.
    change (inject_Z 1) with 1. lra.
  - destruct IH as [IHlo IHhi]; [discriminate|].
    unfold len in IHlo, IHhi.
    change (inject_Z 1) with 1. lra.
Qed.

Lemma len_pos {A} (l : list A) : l <> [] -> 0 < len l.
Proof.
  intro H. unfold len. change 0 with (inject_Z 0). rewrite <- Zlt_Qlt.
  destruct l; [congruence|cbn [length]; lia].
Qed.

Lemma mean_between (lo hi : Q) (l : list Q) :
  Forall (fun x => lo <= x /\ x < hi) l ->
  l <> [] ->
  lo <= VoiceEngine._mean l /\ VoiceEngine._mean l < hi.
Proof.
  intros H Hne. destruct (sum_between lo hi l H Hne) as [L U].
  pose proof (len_pos l Hne) as P. unfold VoiceEngine._mean. split.
  - apply Qle_shift_div_l; assumption.
  - apply Qlt_shift_div_r; assumption.
Qed.

Lemma calculateZCR_range (audioData : list Q) :
  audioData <> [] ->
  Forall (fun z => 0 <= z /\ z < 1) (VoiceEngine._calculateZCR audioData) /\
  0 <= VoiceEngine._mean (VoiceEngine._calculateZCR audioData) /\
  VoiceEngine._mean (VoiceEngine._calculateZCR audioData) < 1.
Proof.
  intro Hne.
  destruct (frames_shape audioData) as (Hcat & Hlen & Hcount).
  assert (F : Forall (fun z => 0 <= z /\ z < 1)
                     (VoiceEngine._calculateZCR audioData)).
  { unfold VoiceEngine._calculateZCR. apply Forall_map.
    eapply Forall_impl; [|exact Hlen].
    intros frame [H1 _]. cbv beta.
    pose proof (crossings_below_length frame) as Hc.
    assert (P : 0 < len frame)
      by (apply len_pos; destruct frame; [cbn in H1; lia|discriminate]).
    split.
    - apply Qle_shift_div_l; [exact P|].
      rewrite Qmult_0_l. change 0 with (inject_Z 0). rewrite <- Zle_Qle. lia.
    - apply Qlt_shift_div_r; [exact P|].
      rewrite Qmult_1_l. unfold len. rewrite <- Zlt_Qlt. lia. }
  split; [exact F|].
  apply mean_between; [exact F|].
  unfold VoiceEngine._calculateZCR. intro E.
  apply (f_equal (@length Q)) in E. rewrite length_map, Hcount in E.
  cbn [length] in E.
  assert (1 <= length audioData)%nat
    by (destruct audioData; [congruence|cbn; lia]).
  pose proof (Nat.div_mod_eq (length audioData + 511) 512).
  pose proof (Nat.mod_upper_bound (length audioData + 511) 512 ltac:(lia)).
  lia.
Qed.

(** Every per-frame zero-crossing rate is at least 0 and below 1 (a
    frame of n samples has at most n - 1 crossings), and so is their
    mean, the [zcr_mean] feature. *)
Theorem zcr_in_unit_interval (audioData : list Q) :
  audioData <> [] ->
  Forall (fun z => 0 <= z /\ z < 1) (VoiceEngine._calculateZCR audioData) /\
  0 <= VoiceEngine._mean (VoiceEngine._calculateZCR audioData) /\
  VoiceEngine._mean (VoiceEngine._calculateZCR audioData) < 1.
Proof.
  intro Hne. destruct (calculateZCR_range audioData Hne) as (F & L & U).
  split; [exact F|]. split; [exact L|exact U].
Qed.

Lemma zcr_in_unit_interval_witness :
  Forall (fun z => 0 <= z /\ z < 1)
         (VoiceEngine._calculateZCR MoreExamples.two_samples) /\
  0 <= VoiceEngine._mean (VoiceEngine._calculateZCR MoreExamples.two_samples) /\
  VoiceEngine._mean (VoiceEngine._calculateZCR MoreExamples.two_samples) < 1.
Proof.
  apply (zcr_in_unit_interval MoreExamples.two_samples). discriminate.
Defined.

Lemma pitch_lag_range (audioData : list Q) : forall lags st,
  Forall (fun lag => (40 <= lag <= 199)%nat) lags ->
  (40 <= snd st <= 199)%nat ->
  (40 <= snd (fold_left
                (fun (st : Q * nat) lag =>
                   let corr := VoiceEngine.autocorr audioData lag in
                   if gtb corr (fst st) then (corr, lag) else st)
                lags st) <= 199)%nat.
Proof.
  induction lags as [|lag lags IH]; intros st Hl Hst; [exact Hst|].
  inversion Hl as [|? ? Hlag Hrest]; subst. cbn [fold_left].
  apply IH; [exact Hrest|].
  cbv zeta. destruct (gtb _ _); [exact Hlag|exact Hst].
Qed.

Lemma estimatePitch_range (audioData : list Q) :
  let p := VoiceEngine._estimatePitch audioData in
  120 < VoiceEngine.tempo_ p /\ VoiceEngine.tempo_ p <= 600 /\
  0.5 <= VoiceEngine.stability p /\ VoiceEngine.stability p <= 1.
Proof.
  cbv zeta. unfold VoiceEngine._estimatePitch.
  cbn [VoiceEngine.tempo_ VoiceEngine.stability].
  match goal with
  | |- context [snd (fold_left ?f ?lags ?st)] =>
      pose proof (pitch_lag_range audioData lags st) as R;
      set (pitchLag := snd (fold_left f lags st)) in *
  end.
  assert (Hlag : (40 <= pitchLag <= 199)%nat).
  { apply R; [|cbn; lia]. apply Forall_forall. intros lag Hin.
    apply in_seq in Hin. lia. }
  clear R.
  set (L := inject_Z (Z.of_nat pitchLag)).
  assert (L40 : 40 <= L)
    by (unfold L; change 40 with (inject_Z 40); rewrite <- Zle_Qle; lia).
  assert (L199 : L <= 199)
    by (unfold L; change 199 with (inject_Z 199); rewrite <- Zle_Qle; lia).
  unfold VoiceEngine.sampleRate.
  set (f0 := 16000 / L).
  assert (F400 : f0 <= 400) by (apply Qle_shift_div_r; lra).
  assert (F80 : 80 < f0) by (apply Qlt_shift_div_l; lra).
  assert (A : Math_abs (f0 - 200) <= 200).
  { unfold Math_abs. apply Qabs_Qle_condition. lra. }
  pose proof (Qabs_nonneg (f0 - 200)) as A0. fold (Math_abs (f0 - 200)) in A0.
  set (d := 1 + Math_abs (f0 - 200) / 200).
  assert (D1 : 1 <= d).
  { unfold d. assert (0 <= Math_abs (f0 - 200) / 200)
      by (apply Qle_shift_div_l; lra). lra. }
  assert (D2 : d <= 2).
  { unfold d. assert (Math_abs (f0 - 200) / 200 <= 1)
      by (apply Qle_shift_div_r; lra). lra. }
  repeat split; try lra.
  - apply Qle_shift_div_l; lra.
  - apply Qle_shift_div_r; lra.
Qed.

(** Whatever the samples are, the pitch search ends on a lag between 40
    and 199, so the tempo feature lies in (120, 600] and the pitch
    stability in [1/2, 1]. *)
Theorem pitch_estimate_bounds (audioData : list Q) :
  let p := VoiceEngine._estimatePitch audioData in
  120 < VoiceEngine.tempo_ p /\ VoiceEngine.tempo_ p <= 600 /\
  0.5 <= VoiceEngine.stability p /\ VoiceEngine.stability p <= 1.
Proof.
  destruct (estimatePitch_range audioData) as (T1 & T2 & S1 & S2).
  cbv zeta. split; [exact T1|]. split; [exact T2|]. split; [exact S1|exact S2].
Qed.

Lemma pitch_search_idle (audioData : list Q) : forall lags,
  forallb (fun lag => Qle_bool (VoiceEngine.autocorr audioData lag) 0) lags
  = true ->
  fold_left
    (fun (st : Q * nat) lag =>
       let corr := VoiceEngine.autocorr audioData lag in
       if gtb corr (fst st) then (corr, lag) else st)
    lags (0, 40%nat)
  = (0, 40%nat).
Proof.
  induction lags as [|lag lags IH]; intro H; [reflexivity|].
  cbn [forallb] in H. apply andb_prop in H. destruct H as [H0 H].
  cbn [fold_left]. cbv zeta. cbn [fst].
  replace (gtb (VoiceEngine.autocorr audioData lag) 0) with false.
  - now apply IH.
  - symmetry. apply ltb_ge. now apply Qle_bool_iff.
Qed.

(** When no searched lag has a positive autocorrelation, as for silence
    and for chunks of at most 40 samples, the search keeps its initial
    lag 40: the estimate is 400 Hz, the tempo feature 600 and the pitch
    stability exactly 1/2. *)
Theorem pitch_of_uncorrelated_audio (audioData : list Q) :
  forallb (fun lag => Qle_bool (VoiceEngine.autocorr audioData lag) 0)
          (seq 40 160) = true ->
  VoiceEngine.tempo_ (VoiceEngine._estimatePitch audioData) == 600 /\
  VoiceEngine.stability (VoiceEngine._estimatePitch audioData) == 0.5.
Proof.
  intro H. unfold VoiceEngine._estimatePitch. cbv zeta.
  change (200 - 40)%nat with 160%nat.
  pose proof (pitch_search_idle audioData _ H) as E. cbv zeta in E.
  rewrite E.
  split; vm_compute; reflexivity.
Qed.

Lemma pitch_of_uncorrelated_audio_witness :
  VoiceEngine.tempo_
    (VoiceEngine._estimatePitch (MoreExamples.silence 100)) == 600 /\
  VoiceEngine.stability
    (VoiceEngine._estimatePitch (MoreExamples.silence 100)) == 0.5.
Proof.
  apply (pitch_of_uncorrelated_audio (MoreExamples.silence 100)).
  vm_compute. reflexivity.
Defined.

(** ** When the pipeline returns an analysis *)

Section Pipeline.
Import VoiceEngine.
Context {M : JSMath}.

(** [_mean] and [_std] are one function each in the source; on a
    non-empty array of finite numbers the version for the mel bands
    gives the finite result of the version for finite numbers. *)
Lemma sum_finite (arr : list Q) : forall acc : Q,
  fold_left Double.add (map Double.Finite arr) (Double.Finite acc)
  = Double.Finite (fold_left Qplus arr acc).
Proof.
  induction arr as [|x arr IH]; intro acc; [reflexivity|].
  cbn [map fold_left Double.add]. apply IH.
Qed.

Lemma len_nonzero {A} (arr : list A) : arr <> [] -> eqb (len arr) 0 = false.
Proof.
  intro H. destruct arr as [|x arr]; [congruence|].
  unfold eqb, len. apply not_true_is_false. intro E.
  apply Qeq_bool_iff in E. unfold Qeq in E.
  cbn [Qnum Qden inject_Z length] in E. lia.
Qed.

Lemma mean_bands_finite (arr : list Q) :
  arr <> [] ->
  _mean_bands (map Double.Finite arr) = Double.Finite (_mean arr).
Proof.
  intro H. unfold _mean_bands, Double.sum, _mean, sum.
  rewrite sum_finite. unfold len at 1. rewrite length_map. fold (len arr).
  cbn [Double.div]. now rewrite (len_nonzero arr H).
Qed.

Lemma squares_finite (mean : Q) (arr : list Q) : forall acc : Q,
  fold_left (fun s x => (s + (x - mean) * (x - mean))%D)
            (map Double.Finite arr) (Double.Finite acc)
  = Double.Finite (fold_left (fun s x => s + (x - mean) * (x - mean)) arr acc).
Proof.
  induction arr as [|x arr IH]; intro acc; [reflexivity|].
  cbn [map fold_left]. apply IH.
Qed.

Lemma squares_nonneg (mean : Q) (arr : list Q) : forall acc,
  0 <= acc ->
  0 <= fold_left (fun s x => s + (x - mean) * (x - mean)) arr acc.
Proof.
  induction arr as [|x arr IH]; intros acc H; [exact H|].
  cbn [fold_left]. apply IH.
  assert (0 <= (x - mean) * (x - mean)).
  { destruct (Qlt_le_dec (x - mean) 0) as [N|P].
    - setoid_replace ((x - mean) * (x - mean))
        with ((- (x - mean)) * (- (x - mean))) by ring.
      apply Qmult_le_0_compat; lra.
    - now apply Qmult_le_0_compat. }
  lra.
Qed.

Lemma std_bands_finite (arr : list Q) :
  arr <> [] ->
  _std_bands (map Double.Finite arr) = Double.Finite (_std arr).
Proof.
  intro H. unfold _std_bands. rewrite (mean_bands_finite arr H).
  rewrite squares_finite. unfold len at 1. rewrite length_map. fold (len arr).
  cbn [Double.div]. rewrite (len_nonzero arr H). cbn [Double.sqrt].
  replace (JS.ltb _ 0) with false; [reflexivity|].
  symmetry. apply ltb_ge. fold (variance arr).
  apply Qle_shift_div_l.
  - destruct arr; [congruence|]. unfold len.
    change 0 with (inject_Z 0). rewrite <- Zlt_Qlt. cbn [length]. lia.
  - rewrite Qmult_0_l. apply squares_nonneg. lra.
Qed.

Lemma rolloff_scan_range (threshold : Double.t) (n : nat) :
  forall bins i energySum,
  (i + length bins <= n)%nat ->
  0 <= rolloff_scan threshold n bins i energySum /\
  rolloff_scan threshold n bins i energySum < sampleRate.
Proof.
  induction bins as [|b bins IH]; intros i energySum Hn; cbn [rolloff_scan].
  - unfold sampleRate. lra.
  - cbn [length] in Hn. cbv zeta.
    destruct (Double.gtb (energySum + b)%D threshold); [|apply IH; lia].
    assert (Pn : 0 < inject_Z (Z.of_nat n))
      by (change 0 with (inject_Z 0); rewrite <- Zlt_Qlt; lia).
    assert (Pi : 0 <= inject_Z (Z.of_nat i))
      by (change 0 with (inject_Z 0); rewrite <- Zle_Qle; lia).
    assert (Lt : inject_Z (Z.of_nat i) < inject_Z (Z.of_nat n))
      by (rewrite <- Zlt_Qlt; lia).
    unfold sampleRate. split.
    + apply Qle_shift_div_l; [exact Pn|]. lra.
    + apply Qlt_shift_div_r; [exact Pn|]. lra.
Qed.

Lemma calculateSpectral_rolloff (audioData : list Q) (sd : SpectralData) :
  _calculateSpectral audioData = Ok sd ->
  0 <= rolloff sd /\ rolloff sd < 1.
Proof.
  unfold _calculateSpectral.
  destruct (_simpleFFT (spectral_window audioData)) as [fft|e];
    cbn [bind]; [|discriminate].
  intro E. injection E as <-. cbn [rolloff].
  match goal with
  | |- context [rolloff_scan ?t ?n ?bins 0%nat ?e] =>
      destruct (rolloff_scan_range t n bins 0%nat e) as [L U];
        [cbn; lia|]; set (r := rolloff_scan t n bins 0%nat e) in *
  end.
  unfold sampleRate in *. split.
  - apply Qle_shift_div_l; lra.
  - apply Qlt_shift_div_r; lra.
Qed.

(** The three outcomes of [extractFeatures]. *)
Lemma extractFeatures_outcome (audioData : list Q) :
  (audioData = [] /\ extractFeatures audioData = Ok None) \/
  (audioData <> [] /\
   ~ Design.power_of_two (Nat.min 2048 (length audioData)) /\
   extractFeatures audioData = Throw TypeError) \/
  (audioData <> [] /\
   Design.power_of_two (Nat.min 2048 (length audioData)) /\
   exists f, extractFeatures audioData = Ok (Some f)).
Proof.
  destruct audioData as [|x rest] eqn:E; [left; now split|]. right.
  rewrite <- E.
  assert (Hne : audioData <> []) by (subst; discriminate).
  destruct (power_of_two_dec (Nat.min 2048 (length audioData))) as [P|P].
  - right. split; [exact Hne|]. split; [exact P|].
    destruct (simpleFFT_outcome (spectral_window audioData)) as [Hok _].
    destruct Hok as (out & Eout & _).
    { right. now destruct (spectral_window_length audioData) as [_ ->]. }
    unfold extractFeatures, _calculateSpectral. rewrite Eout. cbn [bind].
    subst audioData. eexists. reflexivity.
  - left. split; [exact Hne|]. split; [exact P|].
    now apply odd_window_raises.
Qed.

Lemma Ok_Some_inj {A} (a b : A) : Ok (Some a) = Ok (Some b) -> a = b.
Proof. intro H. now injection H. Qed.

Lemma extractFeatures_ranges (audioData : list Q) (f : FeatureVector) :
  extractFeatures audioData = Ok (Some f) ->
  0 < duration f /\
  (0 <= zcr_mean f /\ zcr_mean f < 1) /\
  (0 <= spec_rolloff_mean f /\ spec_rolloff_mean f < 1) /\
  (120 < tempo f /\ tempo f <= 600) /\
  (0.5 <= pitch_stability f /\ pitch_stability f <= 1).
Proof.
  unfold extractFeatures.
  destruct audioData as [|x rest] eqn:E; [discriminate|]. rewrite <- E.
  assert (Hne : audioData <> []) by (subst; discriminate).
  destruct (_calculateSpectral audioData) as [sd|e] eqn:S;
    cbn [bind]; [|discriminate].
  intro F. apply Ok_Some_inj in F. subst f.
  cbn [duration zcr_mean spec_rolloff_mean tempo pitch_stability].
  destruct (calculateZCR_range audioData Hne) as (_ & Z0 & Z1).
  destruct (estimatePitch_range audioData) as (T1 & T2 & S1 & S2).
  pose proof (calculateSpectral_rolloff audioData sd S) as R.
  split; [|repeat split; tauto].
  unfold sampleRate. apply Qlt_shift_div_l; [reflexivity|].
  rewrite Qmult_0_l. now apply len_pos.
Qed.

Lemma processAudio_outcome (bytes : list Byte.byte) :
  let samples := pcm16 (skipn (dataStart bytes) bytes) in
  (processAudio (ArrayBuffer bytes) = None /\
   (samples = [] \/ ~ Design.power_of_two (Nat.min 2048 (length samples)))) \/
  (samples <> [] /\
   Design.power_of_two (Nat.min 2048 (length samples)) /\
   exists f, extractFeatures samples = Ok (Some f) /\
             processAudio (ArrayBuffer bytes) = Some (analysis_of f)).
Proof.
  cbv zeta. unfold processAudio. rewrite parseWAV_ArrayBuffer.
  set (samples := pcm16 (skipn (dataStart bytes) bytes)).
  destruct (extractFeatures_outcome samples)
    as [[E ->]|[(Hne & P & ->)|(Hne & P & f & ->)]].
  - left. split; [reflexivity|now left].
  - left. split; [reflexivity|now right].
  - right. split; [exact Hne|]. split; [exact P|].
    exists f. now split.
Qed.

End Pipeline.

(** [processAudio] returns null exactly when its argument is not an
    ArrayBuffer, or the sample array decoded from the ArrayBuffer is
    empty, or the length of its spectral window, min(2048, N), is not a
    power of two; in every other case it returns an analysis. *)
Theorem processAudio_null_exactly (M : JSMath) (audioBuffer : value) :
  VoiceEngine.processAudio audioBuffer = None <->
  ((forall bytes, audioBuffer <> ArrayBuffer bytes) \/
   exists bytes,
     audioBuffer = ArrayBuffer bytes /\
     let samples :=
       VoiceEngine.pcm16 (skipn (VoiceEngine.dataStart bytes) bytes) in
     samples = [] \/ ~ Design.power_of_two (Nat.min 2048 (length samples))).
Proof.
  destruct audioBuffer as [bytes| |].
  - destruct (processAudio_outcome bytes) as [[E H]|(Hne & P & f & _ & E)].
    + split; [|intros _; exact E].
      intros _. right. exists bytes. split; [reflexivity|exact H].
    + split; [rewrite E; discriminate|].
      intros [H|(bytes' & Eb & H)]; [now destruct (H bytes)|].
      injection Eb as <-. cbv zeta in H.
      destruct H as [H|H]; [now elim Hne|now elim H].
  - split; [|reflexivity]. intros _. left. discriminate.
  - split; [|reflexivity]. intros _. left. discriminate.
Qed.

(** An ArrayBuffer without a 'data' tag and of at least 4096 bytes, that
    is of at least 2048 samples, is always analysed: the window is 2048
    samples long whatever the length is.  The same bytes in a Node.js
    Buffer give null. *)
Theorem long_untagged_audio_is_analysed (M : JSMath) (bytes : list Byte.byte) :
  DecoderExamples.hasDataTag bytes = false ->
  (4096 <= length bytes)%nat ->
  (exists f,
     VoiceEngine.extractFeatures (VoiceEngine.pcm16 bytes) = Ok (Some f) /\
     VoiceEngine.processAudio (ArrayBuffer bytes)
     = Some (VoiceEngine.analysis_of f)) /\
  VoiceEngine.processAudio (Buffer bytes) = None.
Proof.
  intros Htag Hlen. split; [|reflexivity].
  assert (D : VoiceEngine.dataStart bytes = 0%nat).
  { unfold VoiceEngine.dataStart. now rewrite (find_existsb_false _ _ Htag). }
  destruct (processAudio_outcome bytes) as [[_ H]|(_ & _ & f & E1 & E2)];
    rewrite D in *; cbn [skipn] in *.
  - exfalso.
    assert (L : (2048 <= length (VoiceEngine.pcm16 bytes))%nat).
    { rewrite pcm16_length.
      pose proof (Nat.div_mod_eq (length bytes) 2).
      pose proof (Nat.mod_upper_bound (length bytes) 2 ltac:(lia)). lia. }
    destruct H as [H|H].
    + rewrite H in L. cbn in L. lia.
    + apply H. exists 11%nat. rewrite Nat.min_l by exact L. reflexivity.
  - now exists f.
Qed.

Lemma long_untagged_audio_is_analysed_witness :
  (exists f,
     @VoiceEngine.extractFeatures MoreExamples.coarse_math
       (VoiceEngine.pcm16 (repeat Byte.x00 4096)) = Ok (Some f) /\
     @VoiceEngine.processAudio MoreExamples.coarse_math
       (ArrayBuffer (repeat Byte.x00 4096))
     = Some (VoiceEngine.analysis_of f)) /\
  @VoiceEngine.processAudio MoreExamples.coarse_math
    (Buffer (repeat Byte.x00 4096)) = None.
Proof.
  apply (long_untagged_audio_is_analysed MoreExamples.coarse_math
           (repeat Byte.x00 4096)).
  - vm_compute. reflexivity.
  - rewrite repeat_length. lia.
Defined.

(** Every feature vector the extraction returns has a positive duration,
    a ZCR mean and a rolloff in [0, 1) (the rolloff is a bin index
    divided by the number of bins, not a frequency in Hz), a tempo in
    (120, 600] and a pitch stability in [1/2, 1]. *)
Theorem extracted_features_ranges
  (M : JSMath) (audioData : list Q) (f : VoiceEngine.FeatureVector) :
  VoiceEngine.extractFeatures audioData = Ok (Some f) ->
  0 < VoiceEngine.duration f /\
  (0 <= VoiceEngine.zcr_mean f /\ VoiceEngine.zcr_mean f < 1) /\
  (0 <= VoiceEngine.spec_rolloff_mean f /\ VoiceEngine.spec_rolloff_mean f < 1) /\
  (120 < VoiceEngine.tempo f /\ VoiceEngine.tempo f <= 600) /\
  (0.5 <= VoiceEngine.pitch_stability f /\ VoiceEngine.pitch_stability f <= 1).
Proof.
  intro E.
  destruct (extractFeatures_ranges audioData f E) as (D & Z & R & T & S).
  split; [exact D|]. split; [exact Z|]. split; [exact R|].
  split; [exact T|exact S].
Qed.

Lemma extracted_features_ranges_witness :
  exists f,
    @VoiceEngine.extractFeatures MoreExamples.coarse_math
      MoreExamples.two_samples = Ok (Some f) /\
    0 < VoiceEngine.duration f /\
    (0 <= VoiceEngine.zcr_mean f /\ VoiceEngine.zcr_mean f < 1) /\
    (0 <= VoiceEngine.spec_rolloff_mean f /\ VoiceEngine.spec_rolloff_mean f < 1) /\
    (120 < VoiceEngine.tempo f /\ VoiceEngine.tempo f <= 600) /\
    (0.5 <= VoiceEngine.pitch_stability f /\ VoiceEngine.pitch_stability f <= 1).
Proof.
  eexists. split; [vm_compute; reflexivity|].
  apply (extracted_features_ranges MoreExamples.coarse_math
           MoreExamples.two_samples).
  vm_compute. reflexivity.
Defined.

(** ** The fraud risk and what the stream scorer makes of it *)

Lemma if_add_ge (b : bool) (s c : Q) : 0 <= c -> s <= (if b then s + c else s).
Proof. intro H. destruct b; lra. Qed.

Lemma calculateFraudRisk_range (features : option VoiceEngine.FeatureVector) :
  50 <= VoiceEngine.calculateFraudRisk features <= 100.
Proof.
  destruct features as [f|]; [|cbn; lra].
  unfold VoiceEngine.calculateFraudRisk.
  destruct (artifact_score_nonneg f) as (report & -> & Hs).
  cbn [VoiceEngine.analyzeQuality].
  set (q := VoiceEngine.quality_score _).
  repeat match goal with
  | |- context [if ?b then _ else _] => destruct b
  end; min_max_cases; lra.
Qed.

Ltac split_ifs :=
  repeat match goal with
  | |- context [if ?b then _ else _] => destruct b
  end.

Lemma score_of_analysis_floor (random : Q) (f : VoiceEngine.FeatureVector) :
  0 <= VoiceEngine.spec_rolloff_mean f -> VoiceEngine.spec_rolloff_mean f < 1 ->
  6.998 < Server.calculateScore random (Some (VoiceEngine.analysis_of f)).
Proof.
  intros R0 R1.
  unfold Server.calculateScore, VoiceEngine.analysis_of.
  cbn [VoiceEngine.Analysis.features VoiceEngine.Analysis.artifacts
       VoiceEngine.Analysis.fraud_risk VoiceEngine.Analysis.pitch_var
       VoiceEngine.Analysis.rms_mean VoiceEngine.Analysis.zcr_mean
       VoiceEngine.Analysis.spec_centroid_mean VoiceEngine.Analysis.tempo
       VoiceEngine.Analysis.spec_rolloff_mean].
  cbn [VoiceEngine.detectArtifacts VoiceEngine.artifacts].
  cbv zeta.
  cbn [VoiceEngine.robotic_voice VoiceEngine.fake_audio VoiceEngine.clipping
       VoiceEngine.background_noise VoiceEngine.echo truthy].
  pose proof (calculateFraudRisk_range (Some f)) as [F50 F100].
  set (fr := VoiceEngine.calculateFraudRisk (Some f)) in *.
  set (rmsRisk := Math_min 20 _).
  assert (0 <= rmsRisk).
  { unfold rmsRisk. pose proof (Qabs_nonneg (VoiceEngine.rms_mean f - 0.15)).
    unfold Math_abs. min_max_cases; lra. }
  set (zcrRisk := if gtb (Math_abs (VoiceEngine.zcr_mean f - 0.05)) 0.1
                  then 20 else _).
  assert (0 <= zcrRisk) by (unfold zcrRisk; split_ifs; lra).
  set (specRisk := if Double.ltb (VoiceEngine.spec_centroid_mean f) 800
                   then 15 else _).
  assert (0 <= specRisk) by (unfold specRisk; split_ifs; lra).
  set (rolloffRisk := Math_min 10 _).
  assert (6.998 < rolloffRisk).
  { unfold rolloffRisk, Math_abs.
    pose proof (Qabs_neg (VoiceEngine.spec_rolloff_mean f - 3500)
                  ltac:(lra)) as E.
    set (dev := Qabs (VoiceEngine.spec_rolloff_mean f - 3500)) in *.
    assert (6.998 < dev / 500) by (apply Qlt_shift_div_l; lra).
    min_max_cases; lra. }
  set (tempoRisk := if ltb (VoiceEngine.tempo f) 80 then 15 else _).
  assert (0 <= tempoRisk) by (unfold tempoRisk; split_ifs; lra).
  clearbody rmsRisk zcrRisk specRisk rolloffRisk tempoRisk fr.
  destruct (ltb (VoiceEngine.rms_std f) 0.01),
           (Double.ltb (VoiceEngine.mfcc_std f) 0.05
            || Double.gtb (VoiceEngine.mfcc_std f) 50),
           (gtb (VoiceEngine.rms_max f) 0.9),
           (negb (eqb fr 0) && ltb fr 100);
    min_max_cases; lra.
Qed.

(** The stream score of an analysed chunk is never below 6.998: the
    rolloff feature is a fraction below 1, and [calculateScore] measures
    its distance from 3500, which costs 6.998 to 7 points for every
    chunk. *)
Theorem analysed_chunk_score_floor
  (M : JSMath) (buffer : value)
  (analysis : VoiceEngine.Analysis.t) (random : Q) :
  VoiceEngine.processAudio buffer = Some analysis ->
  6.998 < Server.calculateScore random (Some analysis) /\
  Server.calculateScore random (Some analysis) <= 100.
Proof.
  intro E.
  destruct buffer as [bytes| |]; [|discriminate|discriminate].
  destruct (processAudio_outcome bytes) as [[N _]|(_ & _ & f & F & S)];
    [congruence|].
  rewrite S in E. injection E as <-.
  destruct (extractFeatures_ranges _ f F) as (_ & _ & [R0 R1] & _).
  split; [now apply score_of_analysis_floor|].
  unfold Server.calculateScore, VoiceEngine.analysis_of.
  cbn [VoiceEngine.Analysis.features]. apply clamp_0_100.
Qed.

Lemma analysed_chunk_score_floor_witness :
  exists analysis,
    @VoiceEngine.processAudio MoreExamples.coarse_math
      (ArrayBuffer DecoderExamples.raw_pcm)
    = Some analysis /\
    6.998 < Server.calculateScore 0.5 (Some analysis) /\
    Server.calculateScore 0.5 (Some analysis) <= 100.
Proof.
  eexists. split; [vm_compute; reflexivity|].
  apply (analysed_chunk_score_floor MoreExamples.coarse_math
           (ArrayBuffer DecoderExamples.raw_pcm)).
  vm_compute. reflexivity.
Defined.

(** Near-constant energy is penalised twice: a feature vector with
    [rms_std < 0.01] gets the robotic-voice artifact (25 points) and the
    consistency penalty (20 points) on top of the base 50, so its fraud
    risk is at least 95 and its recommendation is BLOCK_IMMEDIATE. *)
Theorem flat_energy_is_blocked (f : VoiceEngine.FeatureVector) :
  VoiceEngine.rms_std f < 0.01 ->
  95 <= VoiceEngine.calculateFraudRisk (Some f) /\
  VoiceEngine.getRecommendation (VoiceEngine.calculateFraudRisk (Some f))
  = VoiceEngine.BLOCK_IMMEDIATE.
Proof.
  intro H. apply ltb_lt in H.
  unfold VoiceEngine.calculateFraudRisk.
  cbn [VoiceEngine.detectArtifacts VoiceEngine.artifact_score
       VoiceEngine.Object_values].
  rewrite H. cbn [filter truthy].
  set (q := VoiceEngine.analyzeQuality (Some f)).
  assert (Q : exists quality, q = Some quality) by (eexists; reflexivity).
  destruct Q as (quality & ->).
  destruct (ltb (VoiceEngine.quality_score quality) 40),
           (gtb (VoiceEngine.zcr_mean f) 0.6),
           (gtb (VoiceEngine.rms_max f) 0.9),
           (Double.ltb (VoiceEngine.mfcc_std f) 0.05
            || Double.gtb (VoiceEngine.mfcc_std f) 50),
           (Double.gtb
              (Double.abs (VoiceEngine.spec_centroid_mean f
                           - VoiceEngine.spec_rolloff_mean f)%D) 0.3),
           (gtb (VoiceEngine.tempo f) 300);
    split; vm_compute; (discriminate || reflexivity).
Qed.

Lemma flat_energy_is_blocked_witness :
  95 <= VoiceEngine.calculateFraudRisk (Some StreamExamples.harsh_features) /\
  VoiceEngine.getRecommendation
    (VoiceEngine.calculateFraudRisk (Some StreamExamples.harsh_features))
  = VoiceEngine.BLOCK_IMMEDIATE.
Proof.
  apply (flat_energy_is_blocked StreamExamples.harsh_features).
  vm_compute. reflexivity.
Defined.

(** The recommendation is ALLOW exactly when no penalty applies: the
    quality score is at least 40, no artifact is detected and the tempo
    is at most 300.  The fraud risk is then exactly the base 50. *)
Theorem allow_means_no_penalty (f : VoiceEngine.FeatureVector) :
  VoiceEngine.getRecommendation (VoiceEngine.calculateFraudRisk (Some f))
  = VoiceEngine.ALLOW
  <->
  (exists quality report,
      VoiceEngine.analyzeQuality (Some f) = Some quality /\
      VoiceEngine.detectArtifacts (Some f) = Some report /\
      ltb (VoiceEngine.quality_score quality) 40 = false /\
      VoiceEngine.artifact_count report = 0%nat /\
      gtb (VoiceEngine.tempo f) 300 = false).
Proof.
  unfold VoiceEngine.calculateFraudRisk.
  set (q := VoiceEngine.analyzeQuality (Some f)).
  assert (Q : exists quality, q = Some quality) by (eexists; reflexivity).
  destruct Q as (quality & Eq). rewrite Eq.
  cbn [VoiceEngine.detectArtifacts VoiceEngine.artifact_score
       VoiceEngine.Object_values].
  destruct (ltb (VoiceEngine.quality_score quality) 40) eqn:Bq,
           (ltb (VoiceEngine.rms_std f) 0.01),
           (gtb (VoiceEngine.zcr_mean f) 0.6),
           (gtb (VoiceEngine.rms_max f) 0.9),
           (Double.ltb (VoiceEngine.mfcc_std f) 0.05
            || Double.gtb (VoiceEngine.mfcc_std f) 50),
           (Double.gtb
              (Double.abs (VoiceEngine.spec_centroid_mean f
                           - VoiceEngine.spec_rolloff_mean f)%D) 0.3),
           (gtb (VoiceEngine.tempo f) 300);
    cbn [filter truthy length];
    (split;
     [ intro H; vm_compute in H; try discriminate H;
       exists quality; eexists; repeat split; assumption
     | intros (quality' & report & E1 & E2 & H1 & H2 & H3);
       injection E1 as <-; injection E2 as <-;
       cbn [VoiceEngine.artifact_count] in H2;
       try discriminate; try congruence; vm_compute; reflexivity ]).
Qed.

(** ** The heuristic risk engine, exactly *)

Ltac pick_member := repeat (try (left; reflexivity); right).

Lemma cogScore_values (inputs : Server.RiskInputs) :
  In (Server.cogScore inputs) [0; 10; 15; 20; 25; 30; 35; 40; 45; 50; 60; 65; 70; 90].
Proof. unfold Server.cogScore. split_ifs; vm_compute; pick_member. Qed.

Lemma behScore_values (inputs : Server.RiskInputs) :
  In (Server.behScore inputs) [0; 10; 15; 25; 35; 40; 45; 60; 80].
Proof. unfold Server.behScore. split_ifs; vm_compute; pick_member. Qed.

Lemma envScore_values (inputs : Server.RiskInputs) :
  In (Server.envScore inputs) [0; 15; 20; 25; 30; 35; 40; 45; 55; 65].
Proof. unfold Server.envScore. split_ifs; vm_compute; pick_member. Qed.

Ltac multiple_of_5 H :=
  cbn [In] in H;
  repeat (destruct H as [<-|H];
          [match goal with
           | |- exists k, ?v == _ =>
               exists (Qfloor (v / 5)); vm_compute; reflexivity
           end|]);
  contradiction.

Lemma cogScore_fives (inputs : Server.RiskInputs) :
  exists k : Z, Server.cogScore inputs == 5 * inject_Z k.
Proof. pose proof (cogScore_values inputs) as H. multiple_of_5 H. Qed.

Lemma behScore_fives (inputs : Server.RiskInputs) :
  exists k : Z, Server.behScore inputs == 5 * inject_Z k.
Proof. pose proof (behScore_values inputs) as H. multiple_of_5 H. Qed.

Lemma envScore_fives (inputs : Server.RiskInputs) :
  exists k : Z, Server.envScore inputs == 5 * inject_Z k.
Proof. pose proof (envScore_values inputs) as H. multiple_of_5 H. Qed.

Lemma Math_round_integer (x : Q) (z : Z) :
  x == inject_Z z -> Math_round x == inject_Z z.
Proof.
  intro E. unfold Math_round. rewrite E.
  assert (F : Qfloor (inject_Z z + 0.5) = z).
  { assert (L : (z <= Qfloor (inject_Z z + 0.5))%Z).
    { rewrite <- (Qfloor_Z z) at 1. apply Qfloor_resp_le. lra. }
    assert (U : (Qfloor (inject_Z z + 0.5) < z + 1)%Z).
    { pose proof (Qfloor_le (inject_Z z + 0.5)) as Hle.
      rewrite Zlt_Qlt, inject_Z_plus. change (inject_Z 1) with 1. lra. }
    lia. }
  now rewrite F.
Qed.

(** In hundredths the final score is a whole number. *)
Lemma finalScore_hundredths (inputs : Server.RiskInputs) :
  exists z : Z, Server.finalScore inputs * 100 == inject_Z z.
Proof.
  destruct (cogScore_fives inputs) as (c & C).
  destruct (behScore_fives inputs) as (b & B).
  destruct (envScore_fives inputs) as (e & E).
  unfold Server.finalScore.
  destruct (Math_min_cases
              ((Server.cogScore inputs * 0.30 + Server.behScore inputs * 0.40
                + Server.envScore inputs * 0.30)
               * Server.intentMults (Server.intent inputs)) 100.0)
    as [[_ ->]|[_ ->]]; [|exists 10000%Z; reflexivity].
  set (cog := Server.cogScore inputs) in *.
  set (beh := Server.behScore inputs) in *.
  set (env := Server.envScore inputs) in *.
  destruct (Server.intent inputs); unfold Server.intentMults.
  - exists (150 * c + 200 * b + 150 * e)%Z.
    rewrite !inject_Z_plus, !inject_Z_mult.
    change (inject_Z 150) with 150. change (inject_Z 200) with 200. lra.
  - exists (210 * c + 280 * b + 210 * e)%Z.
    rewrite !inject_Z_plus, !inject_Z_mult.
    change (inject_Z 210) with 210. change (inject_Z 280) with 280. lra.
  - exists (270 * c + 360 * b + 270 * e)%Z.
    rewrite !inject_Z_plus, !inject_Z_mult.
    change (inject_Z 270) with 270. change (inject_Z 360) with 360. lra.
Qed.

Lemma score_is_finalScore (inputs : Server.RiskInputs) :
  Server.score (Server.calculateRisk inputs) == Server.finalScore inputs.
Proof.
  cbn [Server.calculateRisk Server.score].
  destruct (finalScore_hundredths inputs) as (z & Z).
  rewrite (Math_round_integer _ z Z), <- Z. field.
Qed.

(** The score [calculateRisk] reports is its unrounded final score (the
    rounding to two decimals never changes it), so the verdict agrees
    with the reported score: FAST_LANE exactly below 30, BLOCK_IMMEDIATE
    exactly from 70 on.  The component scores never exceed 90, 80 and
    65, so their clamps at 100 never take effect. *)
Theorem verdict_matches_reported_score (inputs : Server.RiskInputs) :
  let r := Server.calculateRisk inputs in
  Server.score r == Server.finalScore inputs /\
  (Server.action r = Server.FAST_LANE <-> Server.score r < 30) /\
  (Server.action r = Server.BLOCK_IMMEDIATE <-> 70 <= Server.score r) /\
  Server.cognitive (Server.components r) <= 90 /\
  Server.behavioral (Server.components r) <= 80 /\
  Server.environmental (Server.components r) <= 65.
Proof.
  cbv zeta. pose proof (score_is_finalScore inputs) as S.
  split; [exact S|].
  split; [|split].
  - rewrite S. cbn [Server.calculateRisk Server.action].
    destruct (ltb (Server.finalScore inputs) 30) eqn:L30.
    + apply ltb_lt in L30. tauto.
    + apply ltb_ge in L30.
      destruct (ltb (Server.finalScore inputs) 70);
        (split; [discriminate|intro H; exfalso; apply (Qlt_not_le _ _ H L30)]).
  - rewrite S. cbn [Server.calculateRisk Server.action].
    destruct (ltb (Server.finalScore inputs) 30) eqn:L30.
    + apply ltb_lt in L30. split; [discriminate|lra].
    + destruct (ltb (Server.finalScore inputs) 70) eqn:L70.
      * apply ltb_lt in L70. split; [discriminate|lra].
      * apply ltb_ge in L70. tauto.
  - cbn [Server.calculateRisk Server.components Server.cognitive
         Server.behavioral Server.environmental].
    pose proof (cogScore_values inputs) as C.
    pose proof (behScore_values inputs) as B.
    pose proof (envScore_values inputs) as E.
    cbn [In] in C, B, E.
    split; [|split].
    + repeat (destruct C as [<-|C]; [vm_compute; discriminate|]).
      contradiction.
    + repeat (destruct B as [<-|B]; [vm_compute; discriminate|]).
      contradiction.
    + repeat (destruct E as [<-|E]; [vm_compute; discriminate|]).
      contradiction.
Qed.

(** The confidence is 90 less 15 when the noise is below -50 dB and less
    10 when the pitch variance is above 500: one of 90, 80, 75 and 65.
    The floor at 60 never takes effect. *)
Theorem confidence_values (inputs : Server.RiskInputs) :
  Server.confidence (Server.calculateRisk inputs)
  == 90 - (if ltb (Server.noiseDb inputs) (-50) then 15 else 0)
        - (if gtb (Server.pitchVar inputs) 500 then 10 else 0).
Proof.
  cbn [Server.calculateRisk Server.confidence].
  destruct (ltb (Server.noiseDb inputs) (-50)),
           (gtb (Server.pitchVar inputs) 500); vm_compute; reflexivity.
Qed.

(** ** Challenges, liveness and the monitor's alerts *)

Lemma pick_in_catalog (random : Q) (catalog : list string) :
  0 <= random -> random < 1 -> catalog <> [] ->
  exists s, Server.pick random catalog = Some s /\ In s catalog.
Proof.
  intros H0 H1 Hne. unfold Server.pick.
  pose proof (len_pos catalog Hne) as P.
  set (x := random * len catalog).
  assert (X0 : 0 <= x)
    by (unfold x; apply Qmult_le_0_compat; [exact H0|now apply Qlt_le_weak]).
  assert (X1 : x < len catalog).
  { unfold x. rewrite <- (Qmult_1_l (len catalog)) at 2.
    now apply Qmult_lt_compat_r. }
  assert (F0 : (0 <= Qfloor x)%Z).
  { change 0%Z with (Qfloor 0). now apply Qfloor_resp_le. }
  assert (F1 : (Qfloor x < Z.of_nat (length catalog))%Z).
  { rewrite Zlt_Qlt. eapply Qle_lt_trans; [apply Qfloor_le|exact X1]. }
  destruct (nth_error catalog (Z.to_nat (Qfloor x))) as [s|] eqn:E.
  - exists s. split; [reflexivity|]. eapply nth_error_In, E.
  - apply nth_error_None in E. lia.
Qed.

(** The challenge tier depends on the score alone (above 70, above 40,
    otherwise); the value of [Math.random()] only selects the script,
    which is always one of the tier's own catalogue, never undefined. *)
Theorem challenge_script_from_tier (random riskScore : Q) :
  0 <= random -> random < 1 ->
  Server.type (Server.generate random riskScore)
  = (if gtb riskScore 70 then Server.CRITICAL_CONTEXT
     else if gtb riskScore 40 then Server.LINGUISTIC_TRAP
     else Server.PREFERENCE) /\
  exists s,
    Server.script (Server.generate random riskScore) = Some s /\
    In s (match Server.type (Server.generate random riskScore) with
          | Server.CRITICAL_CONTEXT => Server.challenges_critical
          | Server.LINGUISTIC_TRAP => Server.challenges_hard
          | Server.PREFERENCE => Server.challenges_medium
          end).
Proof.
  intros H0 H1. unfold Server.generate.
  destruct (gtb riskScore 70); [|destruct (gtb riskScore 40)];
    cbn [Server.type Server.script];
    (split; [reflexivity|]); apply pick_in_catalog;
    try assumption; discriminate.
Qed.

Lemma challenge_script_from_tier_witness :
  Server.type (Server.generate 0.75 55)
  = (if gtb 55 70 then Server.CRITICAL_CONTEXT
     else if gtb 55 40 then Server.LINGUISTIC_TRAP
     else Server.PREFERENCE) /\
  exists s,
    Server.script (Server.generate 0.75 55) = Some s /\
    In s (match Server.type (Server.generate 0.75 55) with
          | Server.CRITICAL_CONTEXT => Server.challenges_critical
          | Server.LINGUISTIC_TRAP => Server.challenges_hard
          | Server.PREFERENCE => Server.challenges_medium
          end).
Proof.
  apply (challenge_script_from_tier 0.75 55); lra.
Defined.

Lemma livenessScore_at_most_third (inputs : Server.RiskInputs) :
  Server.livenessScore inputs <= 100 # 3.
Proof.
  unfold Server.livenessScore.
  apply Qle_trans with (100 * / 3); [|vm_compute; discriminate].
  apply Qmult_le_compat_r; [|vm_compute; discriminate].
  set (x := _ + _ + _). clearbody x.
  destruct (Math_min_cases 100 x) as [[_ ->]|[? ->]]; lra.
Qed.

(** The liveness score is [Math.min(100, ...) / 3], so it never exceeds
    33.34: every analysis result of the stream carries the indicator
    SUSPICIOUS_SYNTHETIC, whatever the audio. *)
Theorem stream_never_reports_live_speaker
  (env : Server.Env) (analysis : VoiceEngine.Analysis.t)
  (riskMonitor : Server.RealTimeRiskMonitor) (conn : Server.Connection) :
  (forall inputs, Server.livenessScore inputs <= 100 # 3) /\
  exists r riskMonitor' conn',
    Server.onAnalysis env (Some analysis) riskMonitor conn
    = (Server.analysis_result r, riskMonitor', conn') /\
    Server.liveness_indicator (Server.component_analysis r)
    = Server.SUSPICIOUS_SYNTHETIC.
Proof.
  split; [exact livenessScore_at_most_third|].
  do 3 eexists. split; [reflexivity|].
  cbn [Server.liveness_indicator Server.component_analysis].
  match goal with
  | |- (if gtb (Server.livenessScore ?i) 60 then _ else _) = _ =>
      pose proof (livenessScore_at_most_third i) as L;
        replace (gtb (Server.livenessScore i) 60) with false;
        [reflexivity|]
  end.
  symmetry. apply ltb_ge. lra.
Qed.

Lemma threshold_kept (calls : list (Z * Q)) :
  Server.threshold (Server.checkAlerts calls Server.new_RealTimeRiskMonitor) = 70.
Proof.
  induction calls as [|call calls IH] using rev_ind; [reflexivity|].
  rewrite checkAlerts_snoc. exact IH.
Qed.

(** On a monitor that has only been used through [checkAlert] the
    threshold is still 70, so a call raises an alert exactly when the
    score is above 70, that is exactly when the severity is HIGH or
    CRITICAL; MEDIUM is the severity of every score that raises none. *)
Theorem alert_iff_severity_above_medium
  (calls : list (Z * Q)) (now : Z) (score : Q) :
  let this := Server.checkAlerts calls Server.new_RealTimeRiskMonitor in
  let alert := fst (Server.checkAlert now score this) in
  Server.threshold (snd (Server.checkAlert now score this)) = 70 /\
  Server.isAlert alert = gtb score 70 /\
  (Server.isAlert alert = true
   <-> Server.severity alert <> Server.SEVERITY_MEDIUM) /\
  (Server.severity alert = Server.SEVERITY_CRITICAL <-> 85 < score).
Proof.
  cbv zeta. cbn [Server.checkAlert fst snd Server.isAlert Server.severity
                 Server.threshold].
  rewrite threshold_kept.
  split; [reflexivity|]. split; [reflexivity|].
  destruct (gtb score 85) eqn:G85.
  - assert (85 < score) by now apply ltb_lt.
    replace (gtb score 70) with true
      by (symmetry; apply ltb_lt; lra).
    repeat split; try discriminate; auto.
  - assert (score <= 85) by now apply ltb_ge.
    destruct (gtb score 70); repeat split; try discriminate; try tauto;
      intro; lra.
Qed.

(** While at most five scores are held no score precedes the last five,
    so the first five calls on a new monitor all report the trend
    STABLE, however far apart the scores are. *)
Theorem first_five_calls_are_stable
  (calls : list (Z * Q)) (now : Z) (score : Q) :
  (length calls < 5)%nat ->
  Server.trend
    (fst (Server.checkAlert now score
            (Server.checkAlerts calls Server.new_RealTimeRiskMonitor)))
  = Server.STABLE.
Proof.
  intro Hlen.
  change (fst (Server.checkAlert now score ?m))
    with {| Server.isAlert := gtb score (Server.threshold m);
            Server.severity :=
              if gtb score 85 then Server.SEVERITY_CRITICAL
              else if gtb score 70 then Server.SEVERITY_HIGH
              else Server.SEVERITY_MEDIUM;
            Server.trend :=
              Server.calculateTrend (snd (Server.checkAlert now score m)) |}.
  cbn [Server.trend].
  rewrite <- (checkAlerts_snoc calls (now, score)).
  rewrite calculateTrend_refines, history_is_last_ten.
  rewrite slice_last_short
    by (rewrite length_map, length_app; cbn [length]; lia).
  unfold Design.trend. rewrite !length_map.
  destruct (length (calls ++ [(now, score)]) <? 2)%nat; [reflexivity|].
  replace (Design.preceding_five _) with (@nil Q); [reflexivity|].
  rewrite preceding_five_slice. unfold slice_neg, slice.
  rewrite !length_map, length_app. cbn [length].
  replace (length calls + 1 - 5)%nat with 0%nat by lia.
  reflexivity.
Qed.

Lemma first_five_calls_are_stable_witness :
  Server.trend
    (fst (Server.checkAlert 2000 100
            (Server.checkAlerts [(0%Z, 0); (500%Z, 0); (1000%Z, 0); (1500%Z, 0)]
               Server.new_RealTimeRiskMonitor)))
  = Server.STABLE.
Proof.
  apply (first_five_calls_are_stable
           [(0%Z, 0); (500%Z, 0); (1000%Z, 0); (1500%Z, 0)] 2000 100).
  cbn [length]. lia.
Defined.

(** ** What an analysis result of the stream always says *)

(** In every analysis result the blocks agree with each other, because
    all of them compare the same stream score with 70 and 40: on a
    monitor only used through [checkAlert] an alert is triggered exactly
    when the challenge is of type CRITICAL_CONTEXT and the difficulty
    CRITICAL, a challenge is required exactly when the type is not
    PREFERENCE, and the difficulty is HARD exactly for LINGUISTIC_TRAP. *)
Theorem result_blocks_agree
  (env : Server.Env) (analysis : VoiceEngine.Analysis.t)
  (calls : list (Z * Q)) (conn : Server.Connection) :
  exists r riskMonitor' conn',
    Server.onAnalysis env (Some analysis)
      (Server.checkAlerts calls Server.new_RealTimeRiskMonitor) conn
    = (Server.analysis_result r, riskMonitor', conn') /\
    (Server.alert_triggered (Server.monitoring r) = true
     <-> Server.type (Server.challenge (Server.security r))
         = Server.CRITICAL_CONTEXT) /\
    (Server.difficulty (Server.security r) = Server.DIFFICULTY_CRITICAL
     <-> Server.type (Server.challenge (Server.security r))
         = Server.CRITICAL_CONTEXT) /\
    (Server.difficulty (Server.security r) = Server.DIFFICULTY_HARD
     <-> Server.type (Server.challenge (Server.security r))
         = Server.LINGUISTIC_TRAP) /\
    (Server.challenge_required (Server.security r) = true
     <-> Server.type (Server.challenge (Server.security r))
         <> Server.PREFERENCE).
Proof.
  do 3 eexists. split; [reflexivity|].
  cbn [Server.monitoring Server.security Server.alert_triggered
       Server.challenge Server.difficulty Server.challenge_required
       Server.checkAlert Server.isAlert fst Server.threshold].
  rewrite threshold_kept. unfold Server.generate.
  set (riskScore := Server.calculateScore _ _).
  destruct (gtb riskScore 70) eqn:G70.
  - assert (G40 : gtb riskScore 40 = true).
    { apply ltb_lt. apply ltb_lt in G70. lra. }
    rewrite G40. cbn [Server.type].
    repeat split; try discriminate; auto.
  - destruct (gtb riskScore 40); cbn [Server.type];
      repeat split; try discriminate; auto; intro H; now elim H.
Qed.

(** For an analysis built by [processAudio] the handler finds none of
    the keys [pause_std], [pitch_var], [noise_db], [background_noise]
    and [echo]: the full analysis runs on the defaults (noise -60 dB,
    pitch variance 300), so the confidence sent is 75 for every chunk,
    and the result reports neither background noise nor echo, whatever
    [detectArtifacts] found under [heavy_background] and
    [echo_present]. *)
Theorem chunk_result_constants
  (env : Server.Env) (f : VoiceEngine.FeatureVector)
  (riskMonitor : Server.RealTimeRiskMonitor) (conn : Server.Connection) :
  exists r riskMonitor' conn',
    Server.onAnalysis env (Some (VoiceEngine.analysis_of f)) riskMonitor conn
    = (Server.analysis_result r, riskMonitor', conn') /\
    Server.result_confidence (Server.riskScores r) == 75 /\
    Server.out_background_noise (Server.result_artifacts r) = false /\
    Server.out_echo (Server.result_artifacts r) = false /\
    Server.analysisNumber r = S (Server.analysisCount conn).
Proof.
  do 3 eexists. split; [reflexivity|].
  cbn [Server.riskScores Server.result_confidence Server.result_artifacts
       Server.out_background_noise Server.out_echo Server.analysisNumber
       Server.analysisCount].
  split; [vm_compute; reflexivity|].
  repeat split.
Qed.

(** ** A connection's analysis count *)

Lemma onMessage_count (env : Server.Env) (msg : Server.ClientMessage)
      (riskMonitor : Server.RealTimeRiskMonitor) (conn : Server.Connection) :
  let '(out, _, conn') := Server.onMessage env msg riskMonitor conn in
  Server.sessionId conn' = Server.sessionId conn /\
  Server.sessionStartTime conn' = Server.sessionStartTime conn /\
  ((exists a, msg = Server.audio_chunk (Some a)) /\
   Session.analysis_numbers out = [S (Server.analysisCount conn)] /\
   Server.analysisCount conn' = S (Server.analysisCount conn)
   \/
   (forall a, msg <> Server.audio_chunk (Some a)) /\
   Session.analysis_numbers out = [] /\
   Server.analysisCount conn' = Server.analysisCount conn).
Proof.
  destruct msg as [[a|]| | |message]; cbn.
  - split; [reflexivity|]. split; [reflexivity|]. left.
    split; [now exists a|]. split; reflexivity.
  - repeat split. right. repeat split. intros a. discriminate.
  - repeat split. right. repeat split. intros a. discriminate.
  - repeat split. right. repeat split. intros a. discriminate.
  - repeat split. right. repeat split. intros a. discriminate.
Qed.

(** Over any sequence of messages of a connection the analysis numbers
    sent are consecutive and continue the count: there is one per
    [audio_chunk] whose analysis is not null, and errors, [end_stream]
    and other messages neither consume a number nor change the count,
    the session id or the start time. *)
Theorem analysis_numbers_consecutive
  (msgs : list (Server.Env * Server.ClientMessage))
  (riskMonitor : Server.RealTimeRiskMonitor) (conn : Server.Connection) :
  let sent := fst (fst (Session.handle msgs riskMonitor conn)) in
  let conn' := snd (Session.handle msgs riskMonitor conn) in
  let analysed :=
    filter (fun em => match snd em with
                      | Server.audio_chunk (Some _) => true
                      | _ => false
                      end) msgs in
  Session.analysis_numbers sent
  = seq (S (Server.analysisCount conn)) (length analysed) /\
  Server.analysisCount conn'
  = (Server.analysisCount conn + length analysed)%nat /\
  Server.sessionId conn' = Server.sessionId conn /\
  Server.sessionStartTime conn' = Server.sessionStartTime conn.
Proof.
  cbv zeta. revert riskMonitor conn.
  induction msgs as [|[env msg] msgs IH]; intros riskMonitor conn.
  - cbn. repeat split. lia.
  - cbn [Session.handle].
    pose proof (onMessage_count env msg riskMonitor conn) as Hstep.
    destruct (Server.onMessage env msg riskMonitor conn)
      as [[out riskMonitor1] conn1].
    specialize (IH riskMonitor1 conn1).
    destruct (Session.handle msgs riskMonitor1 conn1)
      as [[outs riskMonitor2] conn2].
    cbn [fst snd] in *.
    destruct IH as (IH1 & IH2 & IH3 & IH4).
    destruct Hstep as (S1 & S2 & [((a & ->) & N & C)|(Hno & N & C)]).
    + cbn [filter snd length seq].
      unfold Session.analysis_numbers in *. rewrite flat_map_app, N, IH1, C.
      repeat split; try congruence. lia.
    + assert (F : (match msg with
                   | Server.audio_chunk (Some _) => true
                   | _ => false
                   end) = false).
      { destruct msg as [[a|]| | |]; try reflexivity. now elim (Hno a). }
      cbn [filter snd]. rewrite F.
      unfold Session.analysis_numbers in *. rewrite flat_map_app, N, IH1, C.
      repeat split; congruence.
Qed.

(** ** The file analyser's hash and what follows from it *)

Lemma toInt32_mod (z : Z) : (AudioProcessor.toInt32 z mod 2 ^ 32 = z mod 2 ^ 32)%Z.
Proof.
  unfold AudioProcessor.toInt32.
  destruct (Z.ltb_spec (z mod 2 ^ 32) (2 ^ 31)).
  - apply Z.mod_mod. lia.
  - rewrite <- (Z.mod_mod z (2 ^ 32)) at 2 by lia.
    replace (z mod 2 ^ 32 - 2 ^ 32)%Z
      with (z mod 2 ^ 32 + (-1) * 2 ^ 32)%Z by lia.
    apply Z.mod_add. lia.
Qed.

Lemma toInt32_congruent (x y : Z) :
  (x mod 2 ^ 32 = y mod 2 ^ 32)%Z ->
  AudioProcessor.toInt32 x = AudioProcessor.toInt32 y.
Proof. intro H. unfold AudioProcessor.toInt32. now rewrite H. Qed.

Lemma hash_step_polynomial (x : Z) (b : Byte.byte) :
  AudioProcessor.hash_step (AudioProcessor.toInt32 x) b
  = AudioProcessor.toInt32 (31 * x + Z.of_N (Byte.to_N b)).
Proof.
  unfold AudioProcessor.hash_step. apply toInt32_congruent.
  set (v := Z.of_N (Byte.to_N b)).
  rewrite Zplus_mod, Zminus_mod, !toInt32_mod.
  rewrite (Zmult_mod (AudioProcessor.toInt32 x) 32), toInt32_mod.
  rewrite <- Zmult_mod, <- Zminus_mod, <- Zplus_mod.
  f_equal. lia.
Qed.

Lemma hash_fold_polynomial (bytes : list Byte.byte) : forall x,
  fold_left AudioProcessor.hash_step bytes (AudioProcessor.toInt32 x)
  = AudioProcessor.toInt32
      (fold_left (fun h b => (31 * h + Z.of_N (Byte.to_N b))%Z) bytes x).
Proof.
  induction bytes as [|b bytes IH]; intro x; [reflexivity|].
  cbn [fold_left]. rewrite hash_step_polynomial. apply IH.
Qed.

Lemma seed_range (fileBuffer : list Byte.byte) :
  (0 <= AudioProcessor.seed fileBuffer < 100)%Z.
Proof.
  unfold AudioProcessor.seed. apply Z.rem_bound_pos; lia.
Qed.

(** The file hash is the polynomial hash with multiplier 31 over the
    first 1000 bytes, wrapped to a signed 32-bit integer once at the
    end: the wrap after every round changes nothing.  The seed derived
    from it lies in 0..99, and bytes after the first 1000 do not
    influence the analysis. *)
Theorem file_hash_is_polynomial (now : Z) (fileBuffer : list Byte.byte) :
  AudioProcessor.hash fileBuffer
  = AudioProcessor.toInt32
      (fold_left (fun h b => (31 * h + Z.of_N (Byte.to_N b))%Z)
                 (firstn 1000 fileBuffer) 0%Z) /\
  (0 <= AudioProcessor.seed fileBuffer < 100)%Z /\
  AudioProcessor.analyzeAudioFile now fileBuffer
  = AudioProcessor.analyzeAudioFile now (firstn 1000 fileBuffer).
Proof.
  assert (F : forall l : list Byte.byte,
             firstn (Nat.min (length l) 1000) l = firstn 1000 l).
  { intro l. destruct (Nat.le_gt_cases (length l) 1000).
    - rewrite Nat.min_l by assumption.
      now rewrite !firstn_all2 by lia.
    - now rewrite Nat.min_r by lia. }
  assert (H : AudioProcessor.hash fileBuffer
              = AudioProcessor.hash (firstn 1000 fileBuffer)).
  { unfold AudioProcessor.hash. rewrite !F. now rewrite firstn_firstn. }
  split; [|split].
  - unfold AudioProcessor.hash. rewrite F.
    apply (hash_fold_polynomial (firstn 1000 fileBuffer) 0%Z).
  - apply seed_range.
  - unfold AudioProcessor.analyzeAudioFile, AudioProcessor.seed.
    now rewrite <- H.
Qed.

(** Whatever the file and the time, the generated noise level lies
    between -70 and -50.2 dB and the intent is "medium".  The noise is
    thus always below -50 dB, and the confidence of an uploaded file is
    75 when the seed is at most 44 and 65 otherwise, never 80 or 90.
    The filler count is half the seed, rounded down (0 to 49), and a
    transcript is always selected. *)
Theorem uploaded_file_inputs (now : Z) (fileBuffer : list Byte.byte) :
  let analysis := AudioProcessor.analyzeAudioFile now fileBuffer in
  let inputs := AudioProcessor.inputs analysis in
  let seed := AudioProcessor.seed fileBuffer in
  -70 <= Server.noiseDb inputs /\ Server.noiseDb inputs <= -50.2 /\
  Server.intent inputs = Server.MEDIUM /\
  Server.fillerCount inputs == inject_Z (seed / 2) /\
  Server.confidence (Server.calculateRisk inputs)
  == (if (seed <=? 44)%Z then 75 else 65) /\
  exists t, AudioProcessor.transcript analysis = Some t.
Proof.
  cbv zeta. pose proof (seed_range fileBuffer) as [S0 S100].
  unfold AudioProcessor.analyzeAudioFile.
  cbn [AudioProcessor.inputs AudioProcessor.transcript Server.noiseDb
       Server.intent Server.fillerCount].
  set (s := AudioProcessor.seed fileBuffer) in *.
  assert (Q0 : 0 <= inject_Z s)
    by (change 0 with (inject_Z 0); rewrite <- Zle_Qle; lia).
  assert (Q99 : inject_Z s <= 99)
    by (change 99 with (inject_Z 99); rewrite <- Zle_Qle; lia).
  split; [lra|]. split; [lra|]. split; [reflexivity|].
  split; [|split].
  - unfold Math_floor. apply inject_Z_injective.
    rewrite (Zdiv_Qdiv s 2). apply Qfloor_comp. 
    change (inject_Z 2) with 2. field.
  - cbn [Server.calculateRisk Server.confidence Server.noiseDb Server.pitchVar].
    replace (ltb (-70 + inject_Z s * 0.2) (-50)) with true
      by (symmetry; apply ltb_lt; lra).
    destruct (Z.leb_spec s 44) as [L|L].
    + replace (gtb (100 + inject_Z s * 9) 500) with false;
        [vm_compute; reflexivity|].
      symmetry. apply ltb_ge.
      assert (inject_Z s <= 44)
        by (change 44 with (inject_Z 44); rewrite <- Zle_Qle; lia).
      lra.
    + replace (gtb (100 + inject_Z s * 9) 500) with true;
        [vm_compute; reflexivity|].
      symmetry. apply ltb_lt.
      assert (45 <= inject_Z s)
        by (change 45 with (inject_Z 45); rewrite <- Zle_Qle; lia).
      lra.
  - destruct (nth_error AudioProcessor.transcripts
                (Z.to_nat (Z.rem s
                   (Z.of_nat (length AudioProcessor.transcripts))))) as [t|] eqn:E.
    + now exists t.
    + apply nth_error_None in E. cbn [length AudioProcessor.transcripts] in E.
      pose proof (Z.rem_bound_pos s 10 ltac:(lia) ltac:(lia)).
      change (Z.of_nat 10) with 10%Z in E. lia.
Qed.

(** ** The client's history *)

Lemma addToHistory_firstn {A} (x : A) (l : list A) :
  Client.addToHistory x (firstn 50 l) = firstn 50 (x :: l).
Proof.
  unfold Client.addToHistory, slice. cbn [skipn Nat.sub].
  change (firstn 50 (x :: firstn 50 l)) with (x :: firstn 49 (firstn 50 l)).
  now rewrite firstn_firstn.
Qed.

(** The client keeps the newest 50 results, newest first: after any
    number of results the history is the first 50 of the arrivals in
    reverse order of arrival. *)
Theorem client_history_newest_fifty {A} (entries : list A) :
  Client.addAllToHistory entries [] = firstn 50 (rev entries) /\
  (length (Client.addAllToHistory entries []) <= 50)%nat.
Proof.
  assert (H : Client.addAllToHistory entries [] = firstn 50 (rev entries)).
  { induction entries as [|x entries IH] using rev_ind; [reflexivity|].
    unfold Client.addAllToHistory in *. rewrite fold_left_app. cbn [fold_left].
    rewrite IH, rev_unit. apply addToHistory_firstn. }
  split; [exact H|]. rewrite H, length_firstn. lia.
Qed.

(** ** Artifacts and the transform *)

(** [detectArtifacts] counts the five conditions that hold and scores 25
    points for each, capped at 100: four artifacts and five score the
    same. *)
Theorem artifact_score_per_artifact (f : VoiceEngine.FeatureVector) :
  exists report flags,
    VoiceEngine.detectArtifacts (Some f) = Some report /\
    VoiceEngine.artifacts report = Some flags /\
    VoiceEngine.artifact_count report
    = length (filter (fun b : bool => b)
                [ ltb (VoiceEngine.rms_std f) 0.01;
                  gtb (VoiceEngine.zcr_mean f) 0.6;
                  gtb (VoiceEngine.rms_max f) 0.9;
                  Double.ltb (VoiceEngine.mfcc_std f) 0.05
                  || Double.gtb (VoiceEngine.mfcc_std f) 50;
                  Double.gtb
                    (Double.abs (VoiceEngine.spec_centroid_mean f
                                 - VoiceEngine.spec_rolloff_mean f)%D) 0.3 ]) /\
    (VoiceEngine.artifact_count report <= 5)%nat /\
    VoiceEngine.artifact_score report
    == 25 * inject_Z (Z.of_nat (Nat.min 4 (VoiceEngine.artifact_count report))).
Proof.
  do 2 eexists. split; [reflexivity|]. split; [reflexivity|].
  cbn [VoiceEngine.artifact_count VoiceEngine.artifact_score
       VoiceEngine.Object_values VoiceEngine.robotic_voice
       VoiceEngine.heavy_background VoiceEngine.clipping
       VoiceEngine.fake_audio VoiceEngine.echo_present
       VoiceEngine.background_noise VoiceEngine.echo].
  destruct (ltb (VoiceEngine.rms_std f) 0.01),
           (gtb (VoiceEngine.zcr_mean f) 0.6),
           (gtb (VoiceEngine.rms_max f) 0.9),
           (Double.ltb (VoiceEngine.mfcc_std f) 0.05
            || Double.gtb (VoiceEngine.mfcc_std f) 50),
           (Double.gtb
              (Double.abs (VoiceEngine.spec_centroid_mean f
                           - VoiceEngine.spec_rolloff_mean f)%D) 0.3);
    cbn [filter truthy length];
    (split; [reflexivity|]); (split; [cbn; lia|]); vm_compute; reflexivity.
Qed.

(** The transform returns exactly when its input is empty or has a
    power-of-two length, and then with one bin per input sample; on any
    other length it raises a TypeError. *)
Theorem transform_returns_iff_power_of_two (M : JSMath) (input : list Q) :
  ((exists out, VoiceEngine._simpleFFT input = Ok out)
   <-> (length input = 0%nat \/ Design.power_of_two (length input))) /\
  (forall out, VoiceEngine._simpleFFT input = Ok out ->
               length out = length input) /\
  (VoiceEngine._simpleFFT input = Throw TypeError
   <-> (length input <> 0%nat /\ ~ Design.power_of_two (length input))).
Proof.
  destruct (simpleFFT_outcome input) as [Hok Hthrow].
  destruct (Nat.eq_dec (length input) 0) as [Z|NZ];
    [|destruct (power_of_two_dec (length input)) as [P|P]].
  - destruct Hok as (out & E & L); [now left|]. rewrite E.
    split; [|split].
    + split; [intros _; now left|intros _; now exists out].
    + intros out' H. congruence.
    + split; [discriminate|intros [H _]; now elim H].
  - destruct Hok as (out & E & L); [now right|]. rewrite E.
    split; [|split].
    + split; [intros _; now right|intros _; now exists out].
    + intros out' H. congruence.
    + split; [discriminate|intros [_ H]; now elim H].
  - rewrite (Hthrow NZ P).
    split; [|split].
    + split; [intros (out & H); discriminate|intros [H|H]; contradiction].
    + intros out' H. discriminate.
    + split; [intros _; now split|reflexivity].
Qed.

(** ** The summary of a connection that has the monitor to itself *)

Lemma checkAlerts_cons call calls this :
  Server.checkAlerts (call :: calls) this
  = Server.checkAlerts calls
      (snd (Server.checkAlert (fst call) (snd call) this)).
Proof. reflexivity. Qed.

Lemma handle_state (msgs : list (Server.Env * Server.ClientMessage)) :
  forall riskMonitor conn,
    snd (fst (Session.handle msgs riskMonitor conn))
    = Server.checkAlerts (SessionScores.chunk_calls msgs) riskMonitor /\
    Server.analysisCount (snd (Session.handle msgs riskMonitor conn))
    = (Server.analysisCount conn
       + length (SessionScores.chunk_calls msgs))%nat /\
    Server.sessionId (snd (Session.handle msgs riskMonitor conn))
    = Server.sessionId conn.
Proof.
  induction msgs as [|[env msg] msgs IH]; intros riskMonitor conn.
  - cbn. repeat split. lia.
  - cbn [Session.handle].
    unfold SessionScores.chunk_calls. cbn [flat_map fst snd].
    fold (SessionScores.chunk_calls msgs).
    destruct msg as [[a|]| | |message]; cbn [Server.onMessage Server.onAnalysis].
    + cbn [Server.checkAlert].
      match goal with
      | |- context [Session.handle msgs ?m ?c] =>
          destruct (IH m c) as (I1 & I2 & I3);
            destruct (Session.handle msgs m c) as [[outs m2] c2]
      end.
      cbn [fst snd app length] in *.
      rewrite I1, I2, I3. cbn [Server.analysisCount Server.sessionId].
      repeat split. lia.
    + destruct (IH riskMonitor conn) as (I1 & I2 & I3).
      destruct (Session.handle msgs riskMonitor conn) as [[outs m2] c2].
      cbn [fst snd app length] in *. now rewrite I1, I2, I3.
    + destruct (IH riskMonitor conn) as (I1 & I2 & I3).
      destruct (Session.handle msgs riskMonitor conn) as [[outs m2] c2].
      cbn [fst snd app length] in *. now rewrite I1, I2, I3.
    + destruct (IH riskMonitor conn) as (I1 & I2 & I3).
      destruct (Session.handle msgs riskMonitor conn) as [[outs m2] c2].
      cbn [fst snd app length] in *. now rewrite I1, I2, I3.
    + destruct (IH riskMonitor conn) as (I1 & I2 & I3).
      destruct (Session.handle msgs riskMonitor conn) as [[outs m2] c2].
      cbn [fst snd app length] in *. now rewrite I1, I2, I3.
Qed.

(** When one connection has a new monitor to itself, the summary sent
    for [end_stream] counts its analysed chunks, and its average is the
    mean of the stream scores of the last ten of them at most: from the
    eleventh analysis on, earlier scores of the session no longer enter
    the average.  Trend and verdict are those of the last ten. *)
Theorem lone_session_summary
  (msgs : list (Server.Env * Server.ClientMessage))
  (id : nat) (start : Z) (env : Server.Env) :
  let state :=
    Session.handle msgs Server.new_RealTimeRiskMonitor
                   (Server.new_Connection id start) in
  let scores := map snd (SessionScores.chunk_calls msgs) in
  let last_ten := slice_last 10 scores in
  exists summary,
    Server.onEndStream env (snd (fst state)) (snd state)
    = Server.stream_complete id summary /\
    Server.total_analyses summary = length scores /\
    Server.average_risk_score summary
    = (if (0 <? length scores)%nat
       then toFixed 1 (sum last_ten
                       / inject_Z (Z.of_nat (Nat.min (length scores) 10)))
       else 0) /\
    Server.summary_trend summary = Design.trend last_ten.
Proof.
  cbv zeta.
  destruct (handle_state msgs Server.new_RealTimeRiskMonitor
              (Server.new_Connection id start)) as (Hm & Hc & Hid).
  set (state := Session.handle msgs _ _) in *.
  set (calls := SessionScores.chunk_calls msgs) in *.
  cbn [Server.new_Connection Server.analysisCount Server.sessionId Nat.add]
    in Hc, Hid.
  eexists. unfold Server.onEndStream. rewrite Hid, Hc, Hm.
  split; [reflexivity|].
  cbn [Server.total_analyses Server.average_risk_score Server.summary_trend].
  rewrite calculateTrend_refines, history_is_last_ten, !length_map.
  assert (E : map Server.entry_score
                  (slice_last 10 (map MonitorExamples.entry calls))
              = slice_last 10 (map snd calls)).
  { unfold slice_last. rewrite !length_map, <- skipn_map, map_map.
    reflexivity. }
  split; [reflexivity|]. split; [|now rewrite E].
  destruct (0 <? length calls)%nat; [|reflexivity].
  rewrite (slice_last_short (length calls))
    by (rewrite slice_last_length, length_map; lia).
  rewrite sum_scores_map, E, slice_last_length, length_map.
  replace (Nat.min (length calls) (Nat.min 10 (length calls)))
    with (Nat.min (length calls) 10) by lia.
  reflexivity.
Qed.

(** ** What the stream handler makes of the chunks it receives *)

(** The handler hands every chunk to [processAudio] as a Node.js Buffer,
    for which [new DataView] raises: whatever bytes the chunks carry,
    each is answered with the error "Failed to analyze audio chunk",
    none is scored, and the monitor and the connection's analysis count
    stay as they were. *)
Theorem stream_chunks_are_never_analysed
  (M : JSMath) (chunks : list (Server.Env * list Byte.byte))
  (riskMonitor : Server.RealTimeRiskMonitor) (conn : Server.Connection) :
  Session.handle
    (map (fun c => (fst c, Server.receive_chunk (snd c))) chunks)
    riskMonitor conn
  = (map (fun _ => Server.error (Server.sessionId conn)
                     "Failed to analyze audio chunk") chunks,
     riskMonitor, conn).
Proof.
  induction chunks as [|[e data] chunks IH]; [reflexivity|].
  cbn [map fst snd Session.handle].
  change (Server.onMessage e (Server.receive_chunk data) riskMonitor conn)
    with ([Server.error (Server.sessionId conn)
             "Failed to analyze audio chunk"], riskMonitor, conn).
  cbv iota beta. rewrite IH. reflexivity.
Qed.
